(** * IAM Policy POC dashboard (app.py): record loading and derived views

    A shallow embedding of the data-dependent logic of [app.py]:
    - [load_iteration_data], the loader of the per-iteration result files;
    - the Iteration Explorer page (summary capsule, CST section);
    - the Results Dashboard page (provenance table, repair impact summary,
      canonical CST summary, proof export stats).

    Conventions of the embedding.
    - A parsed JSON object is a record whose fields are [option]s: [None] is
      an absent key.  [d["k"]] on an absent key raises [KeyError];
      [d.get("k", v)] falls back to [v].  Values of a type other than the
      one the data model gives to a key are not represented.
    - A Python number is modelled by its exact rational value ([Q]).
    - A Python [set] is a [gset]; a [dict] used as a map is a [gmap], a
      [dict] that is iterated or displayed is the list of its items.
    - Streamlit calls that show data or a message append a [widget] to the
      page; static headings, captions and help texts are left out.
    - Python strings are byte strings (UTF-8), compared by [String.le],
      which agrees with Python's code point order. *)

From Stdlib Require Import ZArith QArith Qabs Lqa List.
From stdpp Require Import base option list sorting gmap strings pretty.

Local Open Scope Z_scope.

(** ** Exceptions and fallible computations *)

Inductive exn : Type :=
| KeyError (key : string)
| JSONDecodeError
| ValueError (msg : string).

Inductive result (A : Type) : Type :=
| Ok (a : A)
| Raise (e : exn).
Arguments Ok {A} a.
Arguments Raise {A} e.

#[global] Instance result_ret : MRet result := λ A a, Ok a.
#[global] Instance result_bind : MBind result := λ A B f m,
  match m with
  | Ok a => f a
  | Raise e => Raise e
  end.
#[global] Instance result_fmap : FMap result := λ A B f m,
  match m with
  | Ok a => Ok (f a)
  | Raise e => Raise e
  end.

(** [d[key]] on a parsed object: the value, or [KeyError]. *)
Definition getitem {A} (key : string) (field : option A) : result A :=
  match field with
  | Some a => Ok a
  | None => Raise (KeyError key)
  end.

(** [d.get(key, dflt)]. *)
Definition get {A} (field : option A) (dflt : A) : A := default dflt field.

(** [key in d], and [value is not None]. *)
Definition present {A} (field : option A) : bool :=
  match field with
  | Some _ => true
  | None => false
  end.

Definition raises {A} (r : result A) : Prop := ∃ e, r = Raise e.

(** ** Numbers: rounding and formatting *)

(** Nearest integer, ties to the even one (Python's rounding rule). *)
Definition round_half_even (q : Q) : Z :=
  let n := Qnum q in
  let d := Z.pos (Qden q) in
  let fl := n `div` d in
  match (2 * (n `mod` d)) ?= d with
  | Lt => fl
  | Gt => fl + 1
  | Eq => if Z.even fl then fl else fl + 1
  end.

(** [round(x, 3)]. *)
Definition round3 (x : Q) : Q := Qred (round_half_even (x * 1000) # 1000).

Definition pad3 (n : Z) : string :=
  if n <? 10 then "00" +:+ pretty n
  else if n <? 100 then "0" +:+ pretty n
  else pretty n.

(** [f"{x:.3f}"]. *)
Definition fmt3 (x : Q) : string :=
  let n := round_half_even (Qabs x * 1000) in
  (if Qle_bool 0 x then "" else "-")
    +:+ pretty (n `div` 1000) +:+ "." +:+ pad3 (n `mod` 1000).

(** ** Iteration records (iteration_*.json) *)

(** An opaque structured document (a policy), kept as its JSON text. *)
Definition document : Type := string.

Record mutation_meta_t : Type := {
  desc : option string;
  source : option string
}.

Record proof_t : Type := {
  strict_mode : option (list (string * string));
  exploratory_mode : option (list (string * string));
  repair_suggestions : option (list (string * string))
}.

Record violation_t : Type := {
  violation_rate : option Q
}.

Record cst_results_t : Type := {
  before : option violation_t;
  after : option violation_t;
  violation_reduction : option Q
}.

Record iteration_record : Type := {
  iteration : option Z;
  mutation_meta : option mutation_meta_t;
  mutated_policy : option document;
  proof : option proof_t;
  repaired_policy : option document;
  lean_export : option string;
  dafny_export : option string;
  llm_explanation : option string;
  cst_results : option cst_results_t
}.

(** The empty object [{}] as a CST result and as a violation entry. *)
Definition empty_cst : cst_results_t :=
  {| before := None; after := None; violation_reduction := None |}.
Definition empty_violation : violation_t := {| violation_rate := None |}.

(** Truth value of a CST object: a [dict] is true when it has a key. *)
Definition cst_truthy (c : cst_results_t) : bool :=
  present (before c) || present (after c)
  || present (violation_reduction c).

(** ** load_iteration_data *)

(** What [json.load] makes of a file: a decoding error or an object. *)
Inductive file : Type :=
| BadJson
| Json (data : iteration_record).

Definition startswith (pre s : string) : bool := String.prefix pre s.

Definition endswith (suf s : string) : bool :=
  String.prefix (String.rev suf) (String.rev s).

Definition is_iteration_file (fname : string) : bool :=
  startswith "iteration_" fname && endswith ".json" fname.

(** One turn of the loop body: [data = json.load(f)] and
    [results[data["iteration"]] = data]. *)
Definition load_file (results : gmap Z iteration_record) (f : file)
  : result (gmap Z iteration_record) :=
  match f with
  | BadJson => Raise JSONDecodeError
  | Json data =>
      k ← getitem "iteration" (iteration data);
      Ok (<[k := data]> results)
  end.

Fixpoint load_files (results : gmap Z iteration_record) (fs : list file)
  : result (gmap Z iteration_record) :=
  match fs with
  | [] => Ok results
  | f :: fs' => results' ← load_file results f; load_files results' fs'
  end.

(** The files the loop visits: the directory listing, sorted by name and
    filtered by prefix and suffix. *)
Definition iteration_files (dir : gmap string file) : list (string * file) :=
  omap (λ fname, (fname,.) <$> dir !! fname)
       (List.filter is_iteration_file
                    (merge_sort String.le (elements (dom dir)))).

Definition load_iteration_data (dir : gmap string file)
  : result (gmap Z iteration_record) :=
  load_files ∅ (snd <$> iteration_files dir).

(** ** Pages: widgets emitted until an exception stops the script *)

(** The interpolated fields of the summary capsule (the HTML around them is
    constant). *)
Record capsule : Type := {
  cap_iteration : Z;
  cap_desc : option string;
  cap_source : option string;
  cap_contracts : nat;
  cap_failures : nat;
  cap_before_rate : string;
  cap_after_rate : string;
  cap_reduction : string
}.

Inductive json_view : Type :=
| JDocument (d : document)
| JMapping (m : list (string * string))
| JCst (c : cst_results_t).

(** Origin and promotion labels of the provenance table.  Here and in the
    widget labels below, the emoji the source puts in front of a label is
    left out. *)
Inductive origin_symbol : Type := GPT | Seed | Evolved.
Inductive promotion_status : Type := Promoted | Stable | Candidate.

Record provenance_row : Type := {
  Contract : string;
  Origin : origin_symbol;
  Promotion_Status : promotion_status
}.

Inductive widget : Type :=
| st_html (c : capsule)
| st_json (v : json_view)
| st_expander_code (label body language : string)
| st_info (msg : string)
| st_warning (msg : string)
| st_success (msg : string)
| st_write (text : string)
| st_metric (label : string) (value : Q)
| st_dataframe (rows : list provenance_row)
| st_line_chart (columns : string * string) (rows : list (Z * Q * Q)).

Record page (A : Type) : Type := Page {
  output : list widget;
  outcome : result A
}.
Arguments Page {A} output outcome.
Arguments output {A} p.
Arguments outcome {A} p.

#[global] Instance page_ret : MRet page := λ A a, Page [] (Ok a).
#[global] Instance page_bind : MBind page := λ A B f m,
  match outcome m with
  | Ok a => Page (output m ++ output (f a)) (outcome (f a))
  | Raise e => Page (output m) (Raise e)
  end.

Definition show (w : widget) : page unit := Page [w] (Ok tt).
Definition lift {A} (r : result A) : page A := Page [] r.

Fixpoint for_each {A} (l : list A) (body : A → page unit) : page unit :=
  match l with
  | [] => mret tt
  | a :: l' => body a;; for_each l' body
  end.

(** ** Page 2: Iteration Explorer *)

Definition values {K V} (d : list (K * V)) : list V := snd <$> d.

(** [sum(1 for v in strict_mode.values() if v.startswith('FAIL'))]. *)
Definition failures (sm : list (string * string)) : nat :=
  sum_list ((λ _, 1%nat) <$> List.filter (startswith "FAIL") (values sm)).

Definition before_rate (cst : cst_results_t) : Q :=
  get (violation_rate (get (before cst) empty_violation)) 0%Q.
Definition after_rate (cst : cst_results_t) : Q :=
  get (violation_rate (get (after cst) empty_violation)) 0%Q.
Definition reduction (cst : cst_results_t) : Q :=
  get (violation_reduction cst) 0%Q.

Definition summary_capsule (iteration : Z) (data : iteration_record)
  : result capsule :=
  let cst := get (cst_results data) empty_cst in
  mm ← getitem "mutation_meta" (mutation_meta data);
  p ← getitem "proof" (proof data);
  sm ← getitem "strict_mode" (strict_mode p);
  Ok {| cap_iteration := iteration;
        cap_desc := desc mm;
        cap_source := source mm;
        cap_contracts := length sm;
        cap_failures := failures sm;
        cap_before_rate := fmt3 (before_rate cst);
        cap_after_rate := fmt3 (after_rate cst);
        cap_reduction := fmt3 (reduction cst) |}.

Definition cst_section (cst : cst_results_t) : page unit :=
  if cst_truthy cst then show (st_json (JCst cst))
  else show (st_info "No CST results found for this iteration.").

Definition repair_suggestions_section (p : proof_t) : page unit :=
  let repairs := get (repair_suggestions p) [] in
  match repairs with
  | _ :: _ =>
      for_each repairs (λ '(cname, suggestion),
        show (st_expander_code ("Fix for " +:+ cname) suggestion "json"))
  | [] => show (st_info "No repair suggestions generated in this iteration.")
  end.

(** The page for the iteration chosen in the select box. *)
Definition iteration_explorer
    (iteration_results : gmap Z iteration_record) (iteration : Z)
  : page unit :=
  data ← lift (getitem (pretty iteration) (iteration_results !! iteration));
  let cst := get (cst_results data) empty_cst in
  c ← lift (summary_capsule iteration data);
  show (st_html c);;
  show (st_json (JDocument (get (mutated_policy data) "{}")));;
  p ← lift (getitem "proof" (proof data));
  sm ← lift (getitem "strict_mode" (strict_mode p));
  show (st_json (JMapping sm));;
  em ← lift (getitem "exploratory_mode" (exploratory_mode p));
  show (st_json (JMapping em));;
  show (st_expander_code "Lean Theorems" (get (lean_export data) "") "lean");;
  show (st_expander_code "Dafny Lemmas" (get (dafny_export data) "") "dafny");;
  cst_section cst;;
  repair_suggestions_section p;;
  rp ← lift (getitem "repaired_policy" (repaired_policy data));
  show (st_json (JDocument rp));;
  show (st_write (get (llm_explanation data) "No explanation available.")).

(** ** Dashboard record (final_dashboard.json) *)

Record meta_entry : Type := {
  origin : option string;
  first_iteration : option Z   (* key "iteration" *)
}.

Definition empty_meta : meta_entry :=
  {| origin := None; first_iteration := None |}.

(** A repair tuple: iteration, proof score before, after, CST delta. *)
Definition repair_row : Type := Z * Q * Q * Q.

(** [avg_before] may be absent ([None]), [null] ([Some None]) or a number. *)
Record cst_summary_t : Type := {
  avg_before : option (option Q);
  avg_after : option Q;
  avg_delta : option Q;
  before_rates : option (list Q);
  after_rates : option (list Q)
}.

Definition empty_summary : cst_summary_t :=
  {| avg_before := None; avg_after := None; avg_delta := None;
     before_rates := None; after_rates := None |}.

Definition summary_truthy (cs : cst_summary_t) : bool :=
  present (avg_before cs) || present (avg_after cs)
  || present (avg_delta cs)
  || present (before_rates cs)
  || present (after_rates cs).

Record dashboard_record : Type := {
  evolved_contracts : option (list string);
  candidate_contracts : option (list string);
  contract_metadata : option (gmap string meta_entry);
  repair_improvements : option (list repair_row);
  repair_failures : option (list repair_row);
  cst_summary : option cst_summary_t;
  lean_unprovable : option Z;
  dafny_violations : option Z
}.

(** ** Page 3: Results Dashboard *)

Definition evolved_section (final_dashboard : dashboard_record) : page unit :=
  ec ← lift (getitem "evolved_contracts" (evolved_contracts final_dashboard));
  match ec with
  | _ :: _ => show (st_success (String.concat ", " ec))
  | [] => show (st_warning "No contracts evolved in this run.")
  end.

(** *** Contract provenance table *)

Definition meta (final_dashboard : dashboard_record) : gmap string meta_entry :=
  get (contract_metadata final_dashboard) ∅.
Definition evolved (final_dashboard : dashboard_record) : gset string :=
  list_to_set (get (evolved_contracts final_dashboard) []).
Definition candidates (final_dashboard : dashboard_record) : gset string :=
  list_to_set (get (candidate_contracts final_dashboard) []).

(** [meta.keys()]. *)
Definition keys {V} (d : gmap string V) : list string := (map_to_list d).*1.

Definition all_contracts (final_dashboard : dashboard_record) : gset string :=
  list_to_set (elements (evolved final_dashboard)
               ++ elements (candidates final_dashboard)
               ++ keys (meta final_dashboard)).

(** [sorted(xs)] on strings. *)
Definition sorted (xs : list string) : list string := merge_sort String.le xs.

Definition origin_of (final_dashboard : dashboard_record) (cname : string)
  : string :=
  get (origin (get (meta final_dashboard !! cname) empty_meta)) "unknown".

(** The loop body: the row appended for [cname]. *)
Definition provenance_row_of (final_dashboard : dashboard_record)
    (cname : string) : provenance_row :=
  let origin := origin_of final_dashboard cname in
  let origin_symbol :=
    if decide (origin = "gpt") then GPT
    else if decide (origin = "seed") then Seed
    else Evolved in
  let status :=
    if decide (cname ∈ evolved final_dashboard) then Promoted
    else if decide (origin = "seed") then Stable
    else Candidate in
  {| Contract := cname; Origin := origin_symbol; Promotion_Status := status |}.

(** The rows built from one enumeration [enum] of the set [all_contracts]
    (the order in which a Python set is iterated is not fixed). *)
Definition provenance_rows_from (final_dashboard : dashboard_record)
    (enum : list string) : list provenance_row :=
  provenance_row_of final_dashboard <$> sorted enum.

Definition provenance_rows (final_dashboard : dashboard_record)
  : list provenance_row :=
  provenance_rows_from final_dashboard (elements (all_contracts final_dashboard)).

Definition provenance_section (final_dashboard : dashboard_record)
  : page unit :=
  match provenance_rows final_dashboard with
  | (_ :: _) as rows => show (st_dataframe rows)
  | [] => show (st_info "No contract metadata available to display provenance.")
  end.

(** *** Repair impact summary *)

(** Truth value of [d.get(key)] for a list-valued key: false when the key
    is absent or the list is empty. *)
Definition list_truthy {A} (field : option (list A)) : bool :=
  match field with
  | Some (_ :: _) => true
  | _ => false
  end.

(** [pd.DataFrame(repair_data, columns=[...]).set_index("Iteration")]:
    the index and the three remaining columns, row by row. *)
Record repair_frame : Type := {
  Iteration : list Z;
  Before : list Q;
  After : list Q;
  CST_delta : list Q
}.

Definition DataFrame (data : list repair_row) : repair_frame :=
  {| Iteration := (λ '(i, _, _, _), i) <$> data;
     Before := (λ '(_, b, _, _), b) <$> data;
     After := (λ '(_, _, a, _), a) <$> data;
     CST_delta := (λ '(_, _, _, c), c) <$> data |}.

(** [rep_df["After"] - rep_df["Before"]], row by row. *)
Definition delta_proof_score (rep_df : repair_frame) : list Q :=
  zip_with Qminus (After rep_df) (Before rep_df).

(** [Series.mean()]: the sum of the column over its length. *)
Definition mean (col : list Q) : Q :=
  (foldl Qplus 0 col / inject_Z (Z.of_nat (length col)))%Q.

(** [rep_df[["Before", "After"]]], indexed by iteration. *)
Definition before_after (rep_df : repair_frame) : list (Z * Q * Q) :=
  zip (zip (Iteration rep_df) (Before rep_df)) (After rep_df).

(** [repair_data]: the improvements followed by the failures. *)
Definition repair_data (final_dashboard : dashboard_record) : list repair_row :=
  get (repair_improvements final_dashboard) []
  ++ get (repair_failures final_dashboard) [].

Definition repair_section (final_dashboard : dashboard_record) : page unit :=
  if list_truthy (repair_improvements final_dashboard)
     || list_truthy (repair_failures final_dashboard)
  then
    let rep_df := DataFrame (repair_data final_dashboard) in
    let delta := delta_proof_score rep_df in
    show (st_metric "Avg Proof Score (Before)" (round3 (mean (Before rep_df))));;
    show (st_metric "Avg Proof Score (After)" (round3 (mean (After rep_df))));;
    show (st_metric "Avg Δ Proof Score" (round3 (mean delta)));;
    show (st_line_chart ("Before", "After") (before_after rep_df))
  else mret tt.

(** *** Canonical CST summary *)

(** [pd.DataFrame({name1: xs, name2: ys})] for two lists: pandas refuses
    columns of different lengths with a [ValueError]; otherwise row [i]
    holds [xs[i]] and [ys[i]] under the index [i]. *)
Definition DataFrame_of_columns (xs ys : list Q) : result (list (Z * Q * Q)) :=
  if decide (length xs = length ys)
  then Ok (imap (λ i '(x, y), (Z.of_nat i, x, y)) (zip xs ys))
  else Raise (ValueError "All arrays must be of the same length").

Definition cst_summary_section (final_dashboard : dashboard_record)
  : page unit :=
  let cs := get (cst_summary final_dashboard) empty_summary in
  if summary_truthy cs && present (mjoin (avg_before cs))
  then
    ab ← lift (getitem "avg_before" (mjoin (avg_before cs)));
    show (st_metric "Avg Violation Rate (Baseline)" (round3 ab));;
    aa ← lift (getitem "avg_after" (avg_after cs));
    show (st_metric "Avg Violation Rate (After PCR)" (round3 aa));;
    ad ← lift (getitem "avg_delta" (avg_delta cs));
    show (st_metric "Avg Δ (Reduction)" (round3 ad));;
    br ← lift (getitem "before_rates" (before_rates cs));
    ar ← lift (getitem "after_rates" (after_rates cs));
    df ← lift (DataFrame_of_columns br ar);
    show (st_line_chart
            ("Baseline Violation Rate", "After PCR Violation Rate") df)
  else
    show (st_warning "No CST summary available. Regenerate precomputed results.").

(** *** Proof export stats *)

Definition export_section (final_dashboard : dashboard_record) : page unit :=
  lu ← lift (getitem "lean_unprovable" (lean_unprovable final_dashboard));
  show (st_metric "Lean Unprovable Theorems" (inject_Z lu));;
  dv ← lift (getitem "dafny_violations" (dafny_violations final_dashboard));
  show (st_metric "Dafny Violations" (inject_Z dv)).

Definition results_dashboard (final_dashboard : dashboard_record) : page unit :=
  evolved_section final_dashboard;;
  provenance_section final_dashboard;;
  repair_section final_dashboard;;
  cst_summary_section final_dashboard;;
  export_section final_dashboard.

(** ** Page 1: Overview *)

Definition overview (iteration_results : gmap Z iteration_record)
    (final_dashboard : dashboard_record) : page unit :=
  show (st_metric "Total Iterations Run"
          (inject_Z (Z.of_nat (size iteration_results))));;
  show (st_metric "Evolved Contracts"
          (inject_Z (Z.of_nat (length (get (evolved_contracts final_dashboard) []))))).

(** ** Vocabulary of the statements *)

(** The records of the files that parsed. *)
Definition records (fs : list file) : list iteration_record :=
  omap (λ f, match f with Json data => Some data | BadJson => None end) fs.

(** The last record of [ds] whose id is [k]. *)
Definition last_with_id (k : Z) (ds : list iteration_record)
  : option iteration_record :=
  last (filter (λ d, iteration d = Some k) ds).

(** A file the loader can take in: it parses and has an [iteration] key. *)
Definition loadable (f : file) : bool :=
  match f with
  | Json data => present (iteration data)
  | BadJson => false
  end.

(** The keys the explorer reads with [d[key]] are all present. *)
Definition required_fields (data : iteration_record) : Prop :=
  is_Some (mutation_meta data) ∧ is_Some (repaired_policy data) ∧
  ∃ p, proof data = Some p ∧ is_Some (strict_mode p)
       ∧ is_Some (exploratory_mode p).

(** All three sources of a contract name, as the union the table covers. *)
Definition contract_sources (final_dashboard : dashboard_record)
  : gset string :=
  evolved final_dashboard ∪ candidates final_dashboard
  ∪ dom (meta final_dashboard).




(** ** Sample records *)

Definition strict_ABC : list (string * string) :=
  [("A", "PASS"); ("B", "FAIL: wildcard"); ("C", "FAIL")].

Definition sample_meta : mutation_meta_t :=
  {| desc := Some "widen resource"; source := Some "gpt" |}.

Definition sample_proof (sm : option (list (string * string))) : proof_t :=
  {| strict_mode := sm; exploratory_mode := Some [];
     repair_suggestions := None |}.

(** An iteration record with the given id, strict-mode outcomes and CST
    results; every other required field is present. *)
Definition sample_iteration (k : option Z)
    (sm : option (list (string * string))) (cst : option cst_results_t)
  : iteration_record :=
  {| iteration := k; mutation_meta := Some sample_meta;
     mutated_policy := Some "{}"; proof := Some (sample_proof sm);
     repaired_policy := Some "{}"; lean_export := None;
     dafny_export := None; llm_explanation := None; cst_results := cst |}.

(** A record of iteration 1 without CST results. *)
Definition iteration_no_cst : iteration_record :=
  sample_iteration (Some 1) (Some strict_ABC) None.

(** A second record of iteration 1, with other strict-mode outcomes. *)
Definition iteration_1_again : iteration_record :=
  sample_iteration (Some 1) (Some [("A", "PASS")]) None.

(** Two files of one run that carry the same iteration id. *)
Definition colliding_dir : gmap string file :=
  {[ "iteration_1.json" := Json iteration_no_cst;
     "iteration_2.json" := Json iteration_1_again;
     "final_dashboard.json" := BadJson ]}.


(** A run whose second record lacks [proof.strict_mode]. *)
Definition lenient_dir : gmap string file :=
  {[ "iteration_1.json" := Json iteration_no_cst;
     "iteration_2.json" := Json (sample_iteration (Some 2) None None) ]}.

(** A dashboard whose contract "no_wildcards" has the origin "seed" and is
    among the evolved contracts. *)
Definition sample_dashboard : dashboard_record :=
  {| evolved_contracts := Some ["no_wildcards"];
     candidate_contracts := Some ["tag_scope"];
     contract_metadata := Some
       {[ "no_wildcards" := {| origin := Some "seed"; first_iteration := Some 0 |};
          "mfa_required" := {| origin := Some "seed"; first_iteration := None |};
          "tag_scope" := {| origin := Some "gpt"; first_iteration := Some 3 |} ]};
     repair_improvements := Some [(1, 0.5%Q, 0.9%Q, 0.4%Q)];
     repair_failures := None;
     cst_summary := Some
       {| avg_before := Some (Some 0.5%Q); avg_after := Some 0.25%Q;
          avg_delta := Some 0.25%Q;
          before_rates := Some [0.5%Q; 0.5%Q];
          after_rates := Some [0.3%Q; 0.2%Q] |};
     lean_unprovable := Some 3;
     dafny_violations := Some 2 |}.

(** A dashboard without contracts, repairs or CST summary. *)
Definition empty_dashboard : dashboard_record :=
  {| evolved_contracts := Some []; candidate_contracts := Some [];
     contract_metadata := Some ∅;
     repair_improvements := Some []; repair_failures := Some [];
     cst_summary := None;
     lean_unprovable := Some 0; dafny_violations := Some 0 |}.

(** A dashboard whose two rate series differ in length. *)
Definition ragged_dashboard : dashboard_record :=
  {| evolved_contracts := Some []; candidate_contracts := None;
     contract_metadata := None;
     repair_improvements := None; repair_failures := None;
     cst_summary := Some
       {| avg_before := Some (Some 0.5%Q); avg_after := Some 0.25%Q;
          avg_delta := Some 0.25%Q;
          before_rates := Some [0.5%Q; 0.5%Q];
          after_rates := Some [0.3%Q] |};
     lean_unprovable := Some 0; dafny_violations := Some 0 |}.

(** ** The script as a whole *)

(** What [load_final_dashboard] finds under the name final_dashboard.json:
    no file, a file that is not JSON, or the dashboard object. *)
Inductive dashboard_file : Type :=
| NoDashboard
| BadDashboard
| DashboardJson (d : dashboard_record).

(** An exception of the two loaders, raised before any page is drawn. *)
Inductive startup_exn : Type :=
| FileNotFoundError (fname : string)
| LoaderError (e : exn).

Definition load_final_dashboard (f : dashboard_file)
  : startup_exn + dashboard_record :=
  match f with
  | NoDashboard => inl (FileNotFoundError "final_dashboard.json")
  | BadDashboard => inl (LoaderError JSONDecodeError)
  | DashboardJson d => inr d
  end.

(** The choice of the sidebar radio. *)
Inductive page_choice : Type :=
| Overview
| Iteration_Explorer
| Results_Dashboard.

(** The script from top to bottom: both loads, then the chosen page.
    [selection] is the value of the select box of the explorer: one of the
    keys of the store, or [None] when the store is empty. *)
Definition app (dir : gmap string file) (f : dashboard_file)
    (choice : page_choice) (selection : option Z)
  : startup_exn + page unit :=
  match load_iteration_data dir with
  | Raise e => inl (LoaderError e)
  | Ok iteration_results =>
      match load_final_dashboard f with
      | inl e => inl e
      | inr final_dashboard =>
          inr match choice with
              | Overview => overview iteration_results final_dashboard
              | Iteration_Explorer =>
                  match selection with
                  | Some iteration =>
                      iteration_explorer iteration_results iteration
                  | None => lift (Raise (KeyError "None"))
                  end
              | Results_Dashboard => results_dashboard final_dashboard
              end
      end
  end.

(** ** More vocabulary *)

(** The names the loader visits, in the order of the visit. *)
Definition iteration_file_names (dir : gmap string file) : list string :=
  List.filter is_iteration_file (merge_sort String.le (elements (dom dir))).

(** The ids of the records of the run, in the order of the visit. *)
Definition iteration_ids (dir : gmap string file) : list (option Z) :=
  iteration <$> records (snd <$> iteration_files dir).

(** The record [data] with its [cst_results] key set to [cst]. *)
Definition with_cst_results (data : iteration_record)
    (cst : option cst_results_t) : iteration_record :=
  {| iteration := iteration data; mutation_meta := mutation_meta data;
     mutated_policy := mutated_policy data; proof := proof data;
     repaired_policy := repaired_policy data;
     lean_export := lean_export data; dafny_export := dafny_export data;
     llm_explanation := llm_explanation data; cst_results := cst |}.

(** The exception, if any, that stops the explorer page of [data]: the
    first missing key in the order in which the page reads them. *)
Definition explorer_outcome (data : iteration_record) : result unit :=
  _ ← getitem "mutation_meta" (mutation_meta data);
  p ← getitem "proof" (proof data);
  _ ← getitem "strict_mode" (strict_mode p);
  _ ← getitem "exploratory_mode" (exploratory_mode p);
  _ ← getitem "repaired_policy" (repaired_policy data);
  Ok tt.

(** A summary whose fields after [avg_before] are all present, with two
    rate series of one length. *)
Definition summary_complete (cs : cst_summary_t) : bool :=
  present (avg_after cs) && present (avg_delta cs) &&
  match before_rates cs, after_rates cs with
  | Some br, Some ar => bool_decide (length br = length ar)
  | _, _ => false
  end.

(** The metadata origin of [cname], if it has one. *)
Definition metadata_origin (final_dashboard : dashboard_record)
    (cname : string) : option string :=
  meta final_dashboard !! cname ≫= origin.

(** The ids that occur in the iteration files of the run. *)
Definition run_ids (dir : gmap string file) : gset Z :=
  list_to_set (omap iteration (records (snd <$> iteration_files dir))).

(** The widgets of the explorer page outside its CST section. *)
Definition outside_cst_section (w : widget) : Prop :=
  match w with
  | st_html _ | st_json (JDocument _) | st_json (JMapping _)
  | st_expander_code _ _ _ | st_write _ => True
  | st_info msg => msg = "No repair suggestions generated in this iteration."
  | _ => False
  end.

(** * Properties *)

(** ** The page monad *)

Lemma output_bind_l {A B} (m : page A) (f : A → page B) w :
  w ∈ output m → w ∈ output (m ≫= f).
Proof.
  intros Hw. unfold mbind, page_bind.
  destruct (outcome m); simpl; [apply elem_of_app; by left | done].
Qed.

Lemma output_bind_r {A B} (m : page A) (f : A → page B) a w :
  outcome m = Ok a → w ∈ output (f a) → w ∈ output (m ≫= f).
Proof.
  intros Hm Hw. unfold mbind, page_bind. rewrite Hm. simpl.
  apply elem_of_app. by right.
Qed.

Lemma bind_ok {A B} (m : page A) (f : A → page B) a :
  outcome m = Ok a →
  m ≫= f = Page (output m ++ output (f a)) (outcome (f a)).
Proof. intros Hm. unfold mbind, page_bind. by rewrite Hm. Qed.

Lemma bind_raise {A B} (m : page A) (f : A → page B) e :
  outcome m = Raise e → m ≫= f = Page (output m) (Raise e).
Proof. intros Hm. unfold mbind, page_bind. by rewrite Hm. Qed.

Lemma for_each_ok {A} (l : list A) (body : A → page unit) :
  (∀ a, outcome (body a) = Ok tt) → outcome (for_each l body) = Ok tt.
Proof.
  intros Hbody. induction l as [|a l IH]; simpl; [done|].
  unfold mbind, page_bind. by rewrite Hbody.
Qed.

Lemma repair_suggestions_section_ok p :
  outcome (repair_suggestions_section p) = Ok tt.
Proof.
  unfold repair_suggestions_section.
  destruct (get (repair_suggestions p) []) as [|cs l]; [done|].
  apply for_each_ok. by intros [c s].
Qed.

Lemma cst_section_ok cst : outcome (cst_section cst) = Ok tt.
Proof. unfold cst_section. by destruct (cst_truthy cst). Qed.

(** ** Strict-mode failure count *)

Lemma startswith_app pre s :
  startswith pre s = true ↔ ∃ rest, s = pre +:+ rest.
Proof.
  unfold startswith. revert s.
  induction pre as [|a pre IH]; intros s.
  - split; [intros _; exists s; reflexivity | intros _; by destruct s].
  - destruct s as [|b s].
    + split; [discriminate | intros [rest ?]; discriminate].
    + cbn [String.prefix]. destruct (Ascii.ascii_dec a b) as [->|Hne].
      * rewrite IH. split.
        -- intros [rest ->]. exists rest. reflexivity.
        -- intros [rest Heq]. exists rest. injection Heq. auto.
      * split; [discriminate | intros [rest Heq]; injection Heq; congruence].
Qed.

Lemma failures_filter sm :
  failures sm
  = length (List.filter (λ kv : string * string, startswith "FAIL" kv.2) sm).
Proof.
  unfold failures, values.
  induction sm as [|[k v] sm IH]; [done|].
  rewrite fmap_cons. cbn [List.filter snd].
  destruct (startswith "FAIL" v); [|exact IH].
  rewrite fmap_cons. cbn [sum_list sum_list_with length]. by rewrite IH.
Qed.

(** ** The explorer page *)

Lemma summary_capsule_ok it data mm p sm :
  mutation_meta data = Some mm → proof data = Some p →
  strict_mode p = Some sm →
  summary_capsule it data
  = Ok {| cap_iteration := it; cap_desc := desc mm; cap_source := source mm;
          cap_contracts := length sm; cap_failures := failures sm;
          cap_before_rate := fmt3 (before_rate (get (cst_results data) empty_cst));
          cap_after_rate := fmt3 (after_rate (get (cst_results data) empty_cst));
          cap_reduction := fmt3 (reduction (get (cst_results data) empty_cst)) |}.
Proof.
  intros Hmm Hp Hsm. unfold summary_capsule.
  rewrite Hmm, Hp. cbn [getitem mbind result_bind]. by rewrite Hsm.
Qed.

Lemma iteration_explorer_output results it data c p sm em :
  results !! it = Some data →
  summary_capsule it data = Ok c →
  proof data = Some p → strict_mode p = Some sm →
  exploratory_mode p = Some em →
  ∃ rest,
    output (iteration_explorer results it)
    = [st_html c;
       st_json (JDocument (get (mutated_policy data) "{}"));
       st_json (JMapping sm);
       st_json (JMapping em);
       st_expander_code "Lean Theorems" (get (lean_export data) "") "lean";
       st_expander_code "Dafny Lemmas" (get (dafny_export data) "") "dafny"]
      ++ output (cst_section (get (cst_results data) empty_cst)) ++ rest.
Proof.
  intros Hres Hc Hp Hsm Hem. unfold iteration_explorer.
  rewrite Hres. cbn [getitem lift mbind page_bind outcome output].
  rewrite Hc, Hp. cbn [getitem lift mbind page_bind outcome output show].
  rewrite Hsm. cbn [getitem lift mbind page_bind outcome output show].
  rewrite Hem. cbn [getitem lift mbind page_bind outcome output show].
  rewrite (bind_ok (cst_section _) _ tt) by apply cst_section_ok.
  cbn [output app]. eexists. reflexivity.
Qed.



Lemma explorer_without_cst results it data mm p sm em :
  results !! it = Some data → cst_results data = None →
  mutation_meta data = Some mm → proof data = Some p →
  strict_mode p = Some sm → exploratory_mode p = Some em →
  let pg := iteration_explorer results it in
  st_info "No CST results found for this iteration." ∈ output pg ∧
  ∃ c, st_html c ∈ output pg ∧
       cap_before_rate c = fmt3 0 ∧ cap_after_rate c = fmt3 0 ∧
       cap_reduction c = fmt3 0.
Proof.
  intros Hres Hcst Hmm Hp Hsm Hem pg.
  pose proof (summary_capsule_ok it _ _ _ _ Hmm Hp Hsm) as Hc.
  destruct (iteration_explorer_output _ _ _ _ _ _ _ Hres Hc Hp Hsm Hem)
    as [rest Hout].
  subst pg. rewrite Hout, Hcst. split.
  - cbn. set_solver.
  - eexists. split; [apply list_elem_of_here|]. repeat split; reflexivity.
Qed.

(** ** Claims on the Iteration Explorer *)

(** C3. The failure count of the summary capsule is the number of entries
    of [proof.strict_mode] whose outcome starts with ["FAIL"], a prefix
    match (the outcomes that count are exactly those of the form
    ["FAIL" ++ rest]); on [{"A": "PASS", "B": "FAIL: wildcard",
    "C": "FAIL"}] the count is 2. *)
Theorem C3_strict_mode_failure_count it data mm p sm :
  mutation_meta data = Some mm → proof data = Some p →
  strict_mode p = Some sm →
  (∃ c, summary_capsule it data = Ok c ∧
        cap_failures c
        = length (List.filter
                    (λ kv : string * string, startswith "FAIL" kv.2) sm)) ∧
  (∀ v, startswith "FAIL" v = true ↔ ∃ rest, v = "FAIL" +:+ rest) ∧
  failures strict_ABC = 2%nat.
Proof.
  intros Hmm Hp Hsm. split; [|split].
  - eexists. split; [exact (summary_capsule_ok it _ _ _ _ Hmm Hp Hsm)|].
    apply failures_filter.
  - intros v. apply startswith_app.
  - reflexivity.
Qed.

Lemma C3_strict_mode_failure_count_witness :
  (∃ c, summary_capsule 1 iteration_no_cst = Ok c ∧
        cap_failures c
        = length (List.filter
                    (λ kv : string * string, startswith "FAIL" kv.2)
                    strict_ABC)) ∧
  (∀ v, startswith "FAIL" v = true ↔ ∃ rest, v = "FAIL" +:+ rest) ∧
  failures strict_ABC = 2%nat.
Proof.
  apply (C3_strict_mode_failure_count 1 iteration_no_cst sample_meta
           (sample_proof (Some strict_ABC)) strict_ABC); reflexivity.
Defined.

(** C4 (as the code has it). When an iteration has no [cst_results], the
    explorer shows the message "No CST results found for this iteration.",
    and its summary capsule shows the violation rates before and after and
    the reduction as the default 0, formatted "0.000". *)
Theorem C4_absent_cst_results results it data mm p sm em :
  results !! it = Some data → cst_results data = None →
  mutation_meta data = Some mm → proof data = Some p →
  strict_mode p = Some sm → exploratory_mode p = Some em →
  let pg := iteration_explorer results it in
  st_info "No CST results found for this iteration." ∈ output pg ∧
  ∃ c, st_html c ∈ output pg ∧
       cap_before_rate c = "0.000" ∧ cap_after_rate c = "0.000" ∧
       cap_reduction c = "0.000".
Proof. apply explorer_without_cst. Qed.

Lemma C4_absent_cst_results_witness :
  let pg := iteration_explorer {[1 := iteration_no_cst]} 1 in
  st_info "No CST results found for this iteration." ∈ output pg ∧
  ∃ c, st_html c ∈ output pg ∧
       cap_before_rate c = "0.000" ∧ cap_after_rate c = "0.000" ∧
       cap_reduction c = "0.000".
Proof.
  apply (C4_absent_cst_results {[1 := iteration_no_cst]} 1 iteration_no_cst
           sample_meta (sample_proof (Some strict_ABC)) strict_ABC []);
    reflexivity.
Defined.

(** C4, counterexample to the claim as stated: the record of iteration 1
    has no [cst_results], and the capsule of its explorer page shows all
    three values as the default 0. *)
Lemma C4_counterexample :
  cst_results iteration_no_cst = None ∧
  ¬ (∀ c, st_html c ∈ output (iteration_explorer {[1 := iteration_no_cst]} 1) →
          cap_before_rate c ≠ fmt3 0 ∧ cap_after_rate c ≠ fmt3 0 ∧
          cap_reduction c ≠ fmt3 0).
Proof.
  split; [reflexivity|]. intros Hclaim.
  destruct (explorer_without_cst {[1 := iteration_no_cst]} 1 iteration_no_cst
              sample_meta (sample_proof (Some strict_ABC)) strict_ABC [])
    as [_ (c & Hc & Hb & _)]; try reflexivity.
  by destruct (Hclaim c Hc) as [Hne _].
Qed.

(** ** Loading *)

Lemma last_with_id_cons k d ds :
  last_with_id k (d :: ds)
  = match last_with_id k ds with
    | Some d' => Some d'
    | None => if decide (iteration d = Some k) then Some d else None
    end.
Proof.
  unfold last_with_id. rewrite filter_cons.
  destruct (decide (iteration d = Some k)); [|by destruct (last _)].
  rewrite last_cons. by destruct (last _).
Qed.

Lemma loadable_Json f :
  loadable f = true ↔ ∃ data k, f = Json data ∧ iteration data = Some k.
Proof.
  destruct f as [|d]; cbn.
  - split; [done|]. by intros (? & ? & ? & ?).
  - destruct (iteration d) as [k|] eqn:Hk; cbn.
    + split; [|done]. intros _. by exists d, k.
    + split; [done|]. intros (? & k & [= <-] & Hk'). congruence.
Qed.

Lemma load_files_loadable results fs :
  Forall (λ f, loadable f = true) fs →
  ∃ m, load_files results fs = Ok m ∧
       ∀ k, m !! k = match last_with_id k (records fs) with
                     | Some d => Some d
                     | None => results !! k
                     end.
Proof.
  intros Hfs. revert results.
  induction Hfs as [|f fs (d & k0 & -> & Hk0)%loadable_Json _ IH];
    intros results.
  - exists results. by split.
  - cbn [load_files load_file]. rewrite Hk0.
    cbn [getitem mbind result_bind].
    destruct (IH (<[k0 := d]> results)) as (m & Hm & Hlook).
    exists m. split; [done|]. intros k. rewrite Hlook.
    change (records (Json d :: fs)) with (d :: records fs).
    rewrite last_with_id_cons.
    destruct (last_with_id k (records fs)); [done|].
    rewrite Hk0. destruct (decide (Some k0 = Some k)) as [[= ->]|Hne].
    + by rewrite lookup_insert_eq.
    + rewrite lookup_insert_ne; [done|congruence].
Qed.

Lemma load_files_not_loadable results fs f :
  f ∈ fs → loadable f = false → raises (load_files results fs).
Proof.
  intros Hf Hbad. revert results.
  induction fs as [|g fs IH]; intros results; [by apply elem_of_nil in Hf|].
  cbn [load_files]. destruct (load_file results g) as [results'|e] eqn:Hg.
  - cbn [mbind result_bind]. apply IH.
    apply elem_of_cons in Hf as [->|Hf]; [|done].
    destruct g as [|d]; [done|].
    cbn in Hg, Hbad. by destruct (iteration d).
  - by exists e.
Qed.

Lemma elem_of_iteration_files dir fname f :
  (fname, f) ∈ iteration_files dir
  ↔ dir !! fname = Some f ∧ is_iteration_file fname = true.
Proof.
  unfold iteration_files. rewrite list_elem_of_omap. split.
  - intros (n & Hn & Hf).
    apply list_elem_of_In, filter_In in Hn as [_ Hn].
    destruct (dir !! n) as [g|] eqn:Hg; [|done].
    by injection Hf as -> ->.
  - intros [Hf Hn]. exists fname. split; [|by rewrite Hf].
    apply list_elem_of_In, filter_In. split; [|done].
    apply list_elem_of_In. rewrite merge_sort_Permutation.
    apply elem_of_elements, elem_of_dom. by exists f.
Qed.

Lemma last_with_id_is_Some k d ds :
  d ∈ ds → iteration d = Some k → is_Some (last_with_id k ds).
Proof.
  intros Hd Hk. unfold last_with_id. apply last_is_Some.
  intros Hnil. apply (elem_of_nil d). rewrite <- Hnil.
  by apply list_elem_of_filter.
Qed.

Lemma elem_of_records d fs : d ∈ records fs ↔ Json d ∈ fs.
Proof.
  unfold records. rewrite list_elem_of_omap. split.
  - intros ([|d'] & Hf & [= ->]). done.
  - intros Hf. by exists (Json d).
Qed.

Lemma iteration_files_sorted dir :
  StronglySorted String.le (fst <$> iteration_files dir).
Proof.
  unfold iteration_files.
  pose proof (StronglySorted_merge_sort String.le (elements (dom dir))) as Hs.
  induction Hs as [|n ns Hs IH Hn]; [constructor|].
  cbn [List.filter]. destruct (is_iteration_file n); [|done].
  cbn [omap list_omap]. destruct (dir !! n) as [f|]; [|done].
  cbn [fmap option_fmap option_map list_fmap fst]. constructor; [done|].
  apply Forall_forall. intros n' Hn'.
  apply list_elem_of_fmap in Hn' as ([n'' f''] & -> & Hin).
  apply list_elem_of_omap in Hin as (n3 & Hn3 & Hf3).
  apply list_elem_of_In, filter_In in Hn3 as [Hn3 _].
  destruct (dir !! n3); [|done]. injection Hf3 as -> _.
  rewrite Forall_forall in Hn. apply Hn. by apply list_elem_of_In.
Qed.

Lemma load_iteration_data_loadable dir :
  Forall (λ f, loadable f = true) (snd <$> iteration_files dir) →
  ∃ m, load_iteration_data dir = Ok m ∧
       ∀ k, m !! k = last_with_id k (records (snd <$> iteration_files dir)).
Proof.
  intros Hdir. unfold load_iteration_data.
  destruct (load_files_loadable ∅ _ Hdir) as (m & Hm & Hlook).
  exists m. split; [done|]. intros k. rewrite Hlook.
  destruct (last_with_id _ _); [done|]. apply lookup_empty.
Qed.

(** ** Claims on the Record Store *)

(** C5 (as the code has it). The loader does not reject a record whose id
    was already loaded: when every iteration file of the run parses and has
    an [iteration] key, the load succeeds, the files are taken in ascending
    order of their names, and each id is mapped to the record of the last
    file that carries it, which replaces the earlier ones. *)
Theorem C5_colliding_ids_overwrite dir :
  Forall (λ f, loadable f = true) (snd <$> iteration_files dir) →
  StronglySorted String.le (fst <$> iteration_files dir) ∧
  ∃ m, load_iteration_data dir = Ok m ∧
       ∀ k, m !! k = last_with_id k (records (snd <$> iteration_files dir)).
Proof.
  intros Hdir. split; [apply iteration_files_sorted|].
  by apply load_iteration_data_loadable.
Qed.

Lemma C5_colliding_ids_overwrite_witness :
  StronglySorted String.le (fst <$> iteration_files colliding_dir) ∧
  ∃ m, load_iteration_data colliding_dir = Ok m ∧
       ∀ k, m !! k
            = last_with_id k (records (snd <$> iteration_files colliding_dir)).
Proof.
  apply (C5_colliding_ids_overwrite colliding_dir).
  vm_compute. repeat constructor.
Defined.

(** C5, counterexample to the claim as stated: two files of one run carry
    the id 1, and the load succeeds; the id 1 is mapped to the record of
    the second file. *)
Lemma C5_counterexample :
  colliding_dir !! "iteration_1.json" = Some (Json iteration_no_cst) ∧
  colliding_dir !! "iteration_2.json" = Some (Json iteration_1_again) ∧
  iteration iteration_no_cst = Some 1 ∧
  iteration iteration_1_again = Some 1 ∧
  ¬ raises (load_iteration_data colliding_dir) ∧
  (λ m, m !! 1) <$> load_iteration_data colliding_dir
  = Ok (Some iteration_1_again).
Proof.
  repeat split; try by vm_compute.
  intros [e He]. by vm_compute in He.
Qed.

Lemma forallb_false {A} (f : A → bool) l :
  forallb f l = false → ∃ x, x ∈ l ∧ f x = false.
Proof.
  induction l as [|a l IH]; [done|]. cbn [forallb].
  destruct (f a) eqn:Ha.
  - intros (x & Hx & Hfx)%IH. exists x. split; [by right | done].
  - intros _. exists a. split; [by left | done].
Qed.

Lemma forallb_Forall {A} (f : A → bool) l :
  forallb f l = true → Forall (λ x, f x = true) l.
Proof.
  rewrite forallb_forall, Forall_forall. intros H x Hx.
  by apply H, list_elem_of_In.
Qed.




(** A record without [proof.strict_mode] is loaded like any other; only
    its own page raises. *)
Example lenient_dir_loads :
  (λ m, (outcome (iteration_explorer m 1), outcome (iteration_explorer m 2)))
    <$> load_iteration_data lenient_dir
  = Ok (Ok tt, Raise (KeyError "strict_mode")).
Proof. by vm_compute. Qed.

(** ** The provenance table *)

Lemma elem_of_keys {V} (d : gmap string V) c : c ∈ keys d ↔ c ∈ dom d.
Proof.
  unfold keys. rewrite elem_of_dom, list_elem_of_fmap. split.
  - intros ([c' v] & -> & Hcv). exists v. by apply elem_of_map_to_list.
  - intros [v Hv]. exists (c, v). split; [done|]. by apply elem_of_map_to_list.
Qed.

Lemma elem_of_all_contracts fd c :
  c ∈ all_contracts fd ↔ c ∈ contract_sources fd.
Proof.
  unfold all_contracts, contract_sources.
  rewrite elem_of_list_to_set, !elem_of_app, !elem_of_elements, elem_of_keys.
  rewrite !elem_of_union. tauto.
Qed.

Lemma elem_of_sorted xs c : c ∈ sorted xs ↔ c ∈ xs.
Proof. unfold sorted. by rewrite merge_sort_Permutation. Qed.

Lemma elem_of_provenance_rows fd r :
  r ∈ provenance_rows fd
  ↔ ∃ c, r = provenance_row_of fd c ∧ c ∈ contract_sources fd.
Proof.
  unfold provenance_rows, provenance_rows_from.
  rewrite list_elem_of_fmap.
  by setoid_rewrite elem_of_sorted; setoid_rewrite elem_of_elements;
    setoid_rewrite elem_of_all_contracts.
Qed.


Lemma contracts_of_rows fd enum :
  Contract <$> provenance_rows_from fd enum = sorted enum.
Proof.
  unfold provenance_rows_from. rewrite <- list_fmap_compose.
  apply list_fmap_id.
Qed.

(** ** Claims on the provenance classifier *)



(** C9. The rows of the provenance table are in strictly ascending order of
    their contract names, and they do not depend on the order in which the
    set of all contracts is enumerated: the same dashboard record always
    gives the same sequence of rows. *)
Theorem C9_rows_sorted_deterministic fd :
  StronglySorted String.le (Contract <$> provenance_rows fd) ∧
  NoDup (Contract <$> provenance_rows fd) ∧
  (∀ enum, enum ≡ₚ elements (all_contracts fd) →
     provenance_rows_from fd enum = provenance_rows fd).
Proof.
  unfold provenance_rows. rewrite contracts_of_rows. unfold sorted.
  split; [apply StronglySorted_merge_sort; apply _|]. split.
  - rewrite merge_sort_Permutation. apply NoDup_elements.
  - intros enum Henum. unfold provenance_rows_from, sorted. f_equal.
    apply (StronglySorted_unique String.le).
    + apply StronglySorted_merge_sort; apply _.
    + apply StronglySorted_merge_sort; apply _.
    + by rewrite !merge_sort_Permutation.
Qed.

Lemma C9_rows_sorted_deterministic_witness :
  provenance_rows_from sample_dashboard
    ["tag_scope"; "no_wildcards"; "mfa_required"]
  = provenance_rows sample_dashboard.
Proof.
  apply (C9_rows_sorted_deterministic sample_dashboard).
  apply (bool_decide_unpack _). vm_compute. reflexivity.
Defined.

(** ** The repair impact summary *)





Lemma repair_guard fd :
  list_truthy (repair_improvements fd) || list_truthy (repair_failures fd)
  = bool_decide (repair_data fd ≠ []).
Proof.
  unfold repair_data.
  destruct (repair_improvements fd) as [[|r rs]|],
    (repair_failures fd) as [[|r' rs']|]; reflexivity.
Qed.


Lemma repair_section_empty fd :
  repair_data fd = [] → repair_section fd = Page [] (Ok tt).
Proof.
  intros Hnil. unfold repair_section. rewrite repair_guard.
  by rewrite bool_decide_eq_false_2 by (by intros ?).
Qed.

(** ** Claims on the repair impact aggregator *)



(** C7 (as the code has it). When the concatenation of
    [repair_improvements] and [repair_failures] is empty, the repair
    section is skipped: it shows no statistic and no message, computes no
    mean and raises no exception. *)
Theorem C7_empty_repair_data fd :
  repair_data fd = [] → repair_section fd = Page [] (Ok tt).
Proof. apply repair_section_empty. Qed.

Lemma C7_empty_repair_data_witness :
  repair_section empty_dashboard = Page [] (Ok tt).
Proof. apply (C7_empty_repair_data empty_dashboard). reflexivity. Defined.

(** C7, counterexample to the claim as stated: on a dashboard without
    repair tuples the repair section shows nothing at all, while the other
    sections of the page show their messages. *)
Lemma C7_counterexample :
  repair_data empty_dashboard = [] ∧
  ¬ (∃ w, w ∈ output (repair_section empty_dashboard)) ∧
  results_dashboard empty_dashboard
  = Page [st_warning "No contracts evolved in this run.";
          st_info "No contract metadata available to display provenance.";
          st_warning "No CST summary available. Regenerate precomputed results.";
          st_metric "Lean Unprovable Theorems" 0;
          st_metric "Dafny Violations" 0]
         (Ok tt).
Proof.
  split; [reflexivity|]. split; [|by vm_compute].
  intros [w Hw]. by apply elem_of_nil in Hw.
Qed.

(** ** The canonical CST summary *)

(** The section when [avg_before] is a number: the metrics are shown one by
    one until a key is missing or the data frame is refused. *)
Lemma cst_summary_section_present fd cs ab :
  cst_summary fd = Some cs → avg_before cs = Some (Some ab) →
  let m1 := st_metric "Avg Violation Rate (Baseline)" (round3 ab) in
  cst_summary_section fd
  = match avg_after cs with
    | None => Page [m1] (Raise (KeyError "avg_after"))
    | Some aa =>
      let m2 := st_metric "Avg Violation Rate (After PCR)" (round3 aa) in
      match avg_delta cs with
      | None => Page [m1; m2] (Raise (KeyError "avg_delta"))
      | Some ad =>
        let m3 := st_metric "Avg Δ (Reduction)" (round3 ad) in
        match before_rates cs with
        | None => Page [m1; m2; m3] (Raise (KeyError "before_rates"))
        | Some br =>
          match after_rates cs with
          | None => Page [m1; m2; m3] (Raise (KeyError "after_rates"))
          | Some ar =>
            match DataFrame_of_columns br ar with
            | Raise e => Page [m1; m2; m3] (Raise e)
            | Ok df =>
                Page [m1; m2; m3;
                      st_line_chart ("Baseline Violation Rate",
                                     "After PCR Violation Rate") df]
                     (Ok tt)
            end
          end
        end
      end
    end.
Proof.
  intros Hcs Hab. unfold cst_summary_section, summary_truthy.
  rewrite Hcs. cbv beta zeta delta [get]. cbn [from_option id]. rewrite Hab.
  destruct (avg_after cs) as [aa|]; [|reflexivity].
  destruct (avg_delta cs) as [ad|]; [|reflexivity].
  destruct (before_rates cs) as [br|]; [|reflexivity].
  destruct (after_rates cs) as [ar|]; [|reflexivity].
  cbn [mjoin option_join present orb andb getitem lift mbind page_bind
         outcome output show app].
  destruct (DataFrame_of_columns br ar); reflexivity.
Qed.


(** Closes a goal whose hypothesis [H] puts a widget into an explicit list
    of widgets of other kinds. *)
Ltac not_in_output H :=
  repeat (apply elem_of_cons in H as [H|H]; [done|]);
  by apply elem_of_nil in H.

Lemma DataFrame_of_columns_lookup xs ys df :
  DataFrame_of_columns xs ys = Ok df →
  length xs = length ys ∧ length df = length xs ∧
  ∀ (i : nat) x y,
    df !! i = Some (Z.of_nat i, x, y) ↔ xs !! i = Some x ∧ ys !! i = Some y.
Proof.
  unfold DataFrame_of_columns.
  destruct (decide (length xs = length ys)) as [Hlen|]; [|done].
  intros [= <-]. split; [done|]. split.
  - rewrite length_imap, length_zip_with. lia.
  - intros i x y. rewrite list_lookup_imap, lookup_zip_with.
    destruct (xs !! i) as [x'|], (ys !! i) as [y'|]; cbn;
      split; try done; try (by intros [? ?]).
    + by intros [= -> ->].
    + by intros [[= ->] [= ->]].
Qed.

(** ** Claims on the CST summary *)



(** C10. With a summary whose [avg_before] is a number, the chart of the
    two rate series has one row per index, holding the two rates of that
    index, so nothing is cut off or filled in; when the series differ in
    length, the section raises an exception and shows no chart. *)
Theorem C10_rate_series_aligned fd cs ab br ar :
  cst_summary fd = Some cs → avg_before cs = Some (Some ab) →
  before_rates cs = Some br → after_rates cs = Some ar →
  (length br ≠ length ar →
     raises (outcome (cst_summary_section fd)) ∧
     ∀ cols rows, st_line_chart cols rows ∉ output (cst_summary_section fd)) ∧
  (∀ cols rows, st_line_chart cols rows ∈ output (cst_summary_section fd) →
     length br = length ar ∧ length rows = length br ∧
     ∀ (i : nat) b a,
       rows !! i = Some (Z.of_nat i, b, a) ↔ br !! i = Some b ∧ ar !! i = Some a).
Proof.
  intros Hcs Hab Hbr Har.
  rewrite (cst_summary_section_present fd cs ab Hcs Hab), Hbr, Har.
  cbv zeta. split.
  - intros Hlen. unfold DataFrame_of_columns. rewrite decide_False by done.
    destruct (avg_after cs); [destruct (avg_delta cs)|]; cbn [outcome output];
      (split; [by eexists|]); intros cols rows Hin; not_in_output Hin.
  - intros cols rows Hin.
    destruct (avg_after cs); [destruct (avg_delta cs)|]; cbn [output] in Hin.
    + destruct (DataFrame_of_columns br ar) as [df|e] eqn:Hdf;
        cbn [output] in Hin;
        repeat (apply elem_of_cons in Hin as [Hin|Hin]; [done|]).
      * apply elem_of_cons in Hin as [[= -> ->]|Hin];
          [|by apply elem_of_nil in Hin].
        by apply DataFrame_of_columns_lookup.
      * by apply elem_of_nil in Hin.
    + not_in_output Hin.
    + not_in_output Hin.
Qed.

Lemma C10_rate_series_aligned_witness :
  (length [0.5%Q; 0.5%Q] ≠ length [0.3%Q] →
     raises (outcome (cst_summary_section ragged_dashboard)) ∧
     ∀ cols rows,
       st_line_chart cols rows ∉ output (cst_summary_section ragged_dashboard)) ∧
  (∀ cols rows,
     st_line_chart cols rows ∈ output (cst_summary_section ragged_dashboard) →
     length [0.5%Q; 0.5%Q] = length [0.3%Q] ∧
     length rows = length [0.5%Q; 0.5%Q] ∧
     ∀ (i : nat) b a,
       rows !! i = Some (Z.of_nat i, b, a)
       ↔ [0.5%Q; 0.5%Q] !! i = Some b ∧ [0.3%Q] !! i = Some a).
Proof.
  apply (C10_rate_series_aligned ragged_dashboard
           {| avg_before := Some (Some 0.5%Q); avg_after := Some 0.25%Q;
              avg_delta := Some 0.25%Q;
              before_rates := Some [0.5%Q; 0.5%Q];
              after_rates := Some [0.3%Q] |} 0.5%Q);
    reflexivity.
Defined.

(** * Further properties *)

(** ** The loader *)

Lemma filter_sorted (p : string → bool) l :
  StronglySorted String.le l → StronglySorted String.le (List.filter p l).
Proof.
  induction 1 as [|n ns Hs IH Hn]; [constructor|].
  cbn [List.filter]. destruct (p n); [|done]. constructor; [done|].
  rewrite Forall_forall in Hn. apply Forall_forall. intros n' Hn'.
  apply list_elem_of_In, filter_In in Hn' as [Hn' _].
  by apply Hn, list_elem_of_In.
Qed.

Lemma elem_of_iteration_file_names dir n :
  n ∈ iteration_file_names dir
  ↔ is_Some (dir !! n) ∧ is_iteration_file n = true.
Proof.
  unfold iteration_file_names.
  rewrite list_elem_of_In, filter_In, <- list_elem_of_In.
  by rewrite merge_sort_Permutation, elem_of_elements, elem_of_dom.
Qed.

Lemma iteration_file_names_NoDup dir : NoDup (iteration_file_names dir).
Proof.
  unfold iteration_file_names.
  assert (NoDup (merge_sort String.le (elements (dom dir)))) as Hnd.
  { rewrite merge_sort_Permutation. apply NoDup_elements. }
  revert Hnd. generalize (merge_sort String.le (elements (dom dir))).
  intros l. induction 1 as [|n l Hn Hnd IH]; [constructor|].
  cbn [List.filter]. destruct (is_iteration_file n); [|done].
  constructor; [|done]. intros Hin.
  apply list_elem_of_In, filter_In in Hin as [Hin _].
  by apply Hn, list_elem_of_In.
Qed.

Lemma iteration_file_names_sorted dir :
  StronglySorted String.le (iteration_file_names dir).
Proof.
  apply filter_sorted, StronglySorted_merge_sort; apply _.
Qed.

Lemma iteration_files_names dir :
  iteration_files dir
  = omap (λ fname, (fname,.) <$> dir !! fname) (iteration_file_names dir).
Proof. reflexivity. Qed.

Lemma omap_ext_in {A B} (f g : A → option B) (l : list A) :
  (∀ x, x ∈ l → f x = g x) → omap f l = omap g l.
Proof.
  induction l as [|a l IH]; [done|]. intros Hfg. cbn.
  rewrite (Hfg a) by apply list_elem_of_here.
  rewrite IH; [done|]. intros x Hx. apply Hfg. by right.
Qed.

(** X1. The result of the load depends on the files named
    iteration_*.json only. *)
Theorem load_depends_on_iteration_files dir dir' :
  (∀ fname, is_iteration_file fname = true → dir !! fname = dir' !! fname) →
  load_iteration_data dir = load_iteration_data dir'.
Proof.
  intros Hagree. unfold load_iteration_data. f_equal. f_equal.
  rewrite !iteration_files_names.
  assert (iteration_file_names dir = iteration_file_names dir') as <-.
  { apply (StronglySorted_unique String.le);
      [apply iteration_file_names_sorted..|].
    apply NoDup_Permutation; [apply iteration_file_names_NoDup..|].
    intros n. rewrite !elem_of_iteration_file_names.
    split; intros [Hn Hp]; (split; [|done]).
    - by rewrite <- Hagree.
    - by rewrite Hagree. }
  apply omap_ext_in. intros n [_ Hn]%elem_of_iteration_file_names.
  by rewrite Hagree.
Qed.

Lemma load_depends_on_iteration_files_witness :
  load_iteration_data colliding_dir
  = load_iteration_data (delete "final_dashboard.json" colliding_dir).
Proof.
  apply (load_depends_on_iteration_files colliding_dir
           (delete "final_dashboard.json" colliding_dir)).
  intros fname Hname. rewrite lookup_delete_ne; [done|].
  by intros <-.
Defined.

Lemma load_ok_loadable dir m :
  load_iteration_data dir = Ok m →
  Forall (λ f, loadable f = true) (snd <$> iteration_files dir).
Proof.
  intros Hm. apply forallb_Forall.
  destruct (forallb loadable _) eqn:Hall; [done|].
  apply forallb_false in Hall as (f & Hf & Hbad).
  destruct (load_files_not_loadable ∅ _ f Hf Hbad) as [e He].
  unfold load_iteration_data in Hm. congruence.
Qed.

Lemma load_ok_lookup dir m k :
  load_iteration_data dir = Ok m →
  m !! k = last_with_id k (records (snd <$> iteration_files dir)).
Proof.
  intros Hm.
  destruct (load_iteration_data_loadable dir (load_ok_loadable dir m Hm))
    as (m' & Hm' & Hlook).
  rewrite Hm in Hm'. injection Hm' as <-. apply Hlook.
Qed.

Lemma last_with_id_Some k d ds :
  last_with_id k ds = Some d → d ∈ ds ∧ iteration d = Some k.
Proof.
  unfold last_with_id. intros Hlast.
  assert (d ∈ filter (λ d, iteration d = Some k) ds) as Hd.
  { apply last_Some in Hlast as [l ->]. apply elem_of_app. right.
    apply list_elem_of_here. }
  by apply list_elem_of_filter in Hd as [? ?].
Qed.

Lemma load_lookup_sound dir m k d :
  load_iteration_data dir = Ok m → m !! k = Some d →
  iteration d = Some k ∧
  ∃ fname, dir !! fname = Some (Json d) ∧ is_iteration_file fname = true.
Proof.
  intros Hm Hk. rewrite (load_ok_lookup dir m k Hm) in Hk.
  apply last_with_id_Some in Hk as [Hd Hid]. split; [done|].
  apply elem_of_records, list_elem_of_fmap in Hd as ([fname f] & Hf & Hin).
  cbn in Hf. subst f. exists fname. by apply elem_of_iteration_files.
Qed.

(** X2. Whatever the store holds after a load was read from a file named
    iteration_*.json, and is stored under its own [iteration] id. *)
Theorem load_store_sound dir m k d :
  load_iteration_data dir = Ok m → m !! k = Some d →
  iteration d = Some k ∧
  ∃ fname, dir !! fname = Some (Json d) ∧ is_iteration_file fname = true.
Proof. apply load_lookup_sound. Qed.

Lemma load_store_sound_witness :
  iteration iteration_1_again = Some 1 ∧
  ∃ fname, colliding_dir !! fname = Some (Json iteration_1_again)
           ∧ is_iteration_file fname = true.
Proof.
  eapply (load_store_sound colliding_dir _ 1 iteration_1_again).
  - vm_compute. reflexivity.
  - vm_compute. reflexivity.
Defined.

Lemma load_files_size results fs m :
  load_files results fs = Ok m → (size m ≤ size results + length fs)%nat.
Proof.
  revert results. induction fs as [|f fs IH]; intros results.
  - intros [= <-]. cbn. lia.
  - cbn [load_files]. destruct (load_file results f) as [r|e] eqn:Hf; [|done].
    cbn [mbind result_bind]. intros Hm%IH.
    destruct f as [|d]; [done|]. cbn in Hf.
    destruct (iteration d) as [k|]; [|done]. injection Hf as <-.
    rewrite map_size_insert in Hm. cbn [length].
    destruct (results !! k); cbn in Hm; lia.
Qed.

Lemma load_files_size_distinct results fs m :
  load_files results fs = Ok m →
  NoDup (iteration <$> records fs) →
  (∀ d k, d ∈ records fs → iteration d = Some k → results !! k = None) →
  size m = (size results + length fs)%nat.
Proof.
  revert results. induction fs as [|f fs IH]; intros results.
  - intros [= <-] _ _. cbn. lia.
  - cbn [load_files]. destruct (load_file results f) as [r|e] eqn:Hf; [|done].
    cbn [mbind result_bind]. intros Hm Hnd Hfresh.
    destruct f as [|d]; [done|]. cbn in Hf.
    destruct (iteration d) as [k|] eqn:Hk; [|done]. injection Hf as <-.
    change (records (Json d :: fs)) with (d :: records fs) in *.
    rewrite fmap_cons in Hnd. apply NoDup_cons in Hnd as [Hnotin Hnd].
    rewrite (IH _ Hm Hnd).
    + rewrite map_size_insert_None; [cbn; lia|].
      apply (Hfresh d k); [apply list_elem_of_here | done].
    + intros d' k' Hd' Hk'. rewrite lookup_insert_ne.
      * apply (Hfresh d' k'); [by right | done].
      * intros <-. apply Hnotin. rewrite Hk, <- Hk'.
        by apply list_elem_of_fmap_2.
Qed.

Lemma filter_none {A} (P : A → Prop) `{∀ x, Decision (P x)} (l : list A) :
  (∀ y, y ∈ l → ¬ P y) → filter P l = [].
Proof.
  intros Hl. destruct (filter P l) as [|y ys] eqn:Hf; [done|].
  assert (y ∈ filter P l) as [Hy Hin]%list_elem_of_filter
    by (rewrite Hf; apply list_elem_of_here).
  by destruct (Hl y).
Qed.

Lemma filter_unique {A B} `{EqDecision B} (f : A → B) (l : list A) x :
  NoDup (f <$> l) → x ∈ l → filter (λ y, f y = f x) l = [x].
Proof.
  induction l as [|a l IH]; [by intros _ ?%elem_of_nil|].
  rewrite fmap_cons. intros [Ha Hnd]%NoDup_cons Hx.
  rewrite filter_cons. destruct (decide (f a = f x)) as [Heq|Hne].
  - assert (x = a) as ->.
    { apply elem_of_cons in Hx as [->|Hx]; [done|].
      exfalso. apply Ha. rewrite Heq. by apply list_elem_of_fmap_2. }
    f_equal. apply filter_none. intros y Hy Hfy.
    apply Ha. rewrite <- Hfy. by apply list_elem_of_fmap_2.
  - apply IH; [done|]. apply elem_of_cons in Hx as [->|Hx]; [done|done].
Qed.

(** X3. The store never holds more records than there are iteration
    files.  When the ids of the files are pairwise distinct, it holds
    exactly one record per file, each under its id. *)
Theorem load_distinct_ids dir m :
  load_iteration_data dir = Ok m →
  (size m ≤ length (iteration_files dir))%nat ∧
  (NoDup (iteration_ids dir) →
   size m = length (iteration_files dir) ∧
   ∀ fname d k, dir !! fname = Some (Json d) →
     is_iteration_file fname = true → iteration d = Some k →
     m !! k = Some d).
Proof.
  intros Hm. split.
  - pose proof (load_files_size _ _ _ Hm) as Hsize.
    rewrite map_size_empty, length_fmap in Hsize. lia.
  - intros Hnd. split.
    + rewrite (load_files_size_distinct _ _ _ Hm Hnd).
      * by rewrite map_size_empty, length_fmap.
      * intros. apply lookup_empty.
    + intros fname d k Hd Hname Hk. rewrite (load_ok_lookup dir m k Hm).
      unfold last_with_id.
      assert (d ∈ records (snd <$> iteration_files dir)) as Hin.
      { apply elem_of_records, list_elem_of_fmap. exists (fname, Json d).
        split; [done|]. by apply elem_of_iteration_files. }
      rewrite <- Hk. by rewrite (filter_unique iteration _ d Hnd Hin).
Qed.

Lemma load_distinct_ids_witness :
  le (size (<[2 := sample_iteration (Some 2) None None]>
              (<[1 := iteration_no_cst]> (∅ : gmap Z iteration_record))))
     (length (iteration_files lenient_dir)) ∧
  (NoDup (iteration_ids lenient_dir) →
   size (<[2 := sample_iteration (Some 2) None None]>
           (<[1 := iteration_no_cst]> (∅ : gmap Z iteration_record)))
   = length (iteration_files lenient_dir) ∧
   ∀ fname d k, lenient_dir !! fname = Some (Json d) →
     is_iteration_file fname = true → iteration d = Some k →
     (<[2 := sample_iteration (Some 2) None None]>
        (<[1 := iteration_no_cst]> (∅ : gmap Z iteration_record))) !! k
     = Some d).
Proof.
  apply (load_distinct_ids lenient_dir). reflexivity.
Defined.

(** ** The explorer page *)

(** X4. The explorer page of a stored record stops at the first key it
    reads that is missing, in the order mutation_meta, proof, strict_mode,
    exploratory_mode, repaired_policy, with the [KeyError] of that key; it
    completes exactly when the five keys are present. *)
Theorem iteration_explorer_outcome results it data :
  results !! it = Some data →
  outcome (iteration_explorer results it) = explorer_outcome data ∧
  (outcome (iteration_explorer results it) = Ok tt ↔ required_fields data).
Proof.
  intros Hres.
  assert (outcome (iteration_explorer results it) = explorer_outcome data)
    as Hout.
  { unfold iteration_explorer, explorer_outcome, summary_capsule.
    rewrite Hres. cbn [getitem lift mbind page_bind outcome output].
    destruct (mutation_meta data) as [mm|]; [|reflexivity].
    destruct (proof data) as [p|]; [|reflexivity].
    cbn [getitem mbind result_bind].
    destruct (strict_mode p) as [sm|]; [|reflexivity].
    cbn [getitem lift mbind page_bind result_bind outcome output show].
    destruct (exploratory_mode p) as [em|]; [|reflexivity].
    cbn [getitem lift mbind page_bind result_bind outcome output show].
    rewrite (bind_ok (cst_section _) _ tt) by apply cst_section_ok.
    rewrite (bind_ok (repair_suggestions_section _) _ tt)
      by apply repair_suggestions_section_ok.
    by destruct (repaired_policy data). }
  split; [done|]. rewrite Hout. unfold explorer_outcome, required_fields.
  destruct (mutation_meta data) as [mm|]; cbn;
    [|split; [done | by intros [[? ?] _]]].
  destruct (proof data) as [p|]; cbn;
    [|split; [done | by intros (_ & _ & ? & ? & _)]].
  destruct (strict_mode p) as [sm|] eqn:Hsm; cbn;
    [|split; [done | intros (_ & _ & ? & [= <-] & [? ?] & _); congruence]].
  destruct (exploratory_mode p) as [em|] eqn:Hem; cbn;
    [|split; [done | intros (_ & _ & ? & [= <-] & _ & [? ?]); congruence]].
  destruct (repaired_policy data) as [rp|]; cbn;
    [|split; [done | by intros (_ & [? ?] & _)]].
  split; [|done]. intros _. split; [by eexists|]. split; [by eexists|].
  exists p. split; [done|]. split; by eexists.
Qed.

Lemma iteration_explorer_outcome_witness :
  outcome (iteration_explorer {[2 := sample_iteration (Some 2) None None]} 2)
  = explorer_outcome (sample_iteration (Some 2) None None) ∧
  (outcome (iteration_explorer {[2 := sample_iteration (Some 2) None None]} 2)
   = Ok tt
   ↔ required_fields (sample_iteration (Some 2) None None)).
Proof.
  apply (iteration_explorer_outcome
           {[2 := sample_iteration (Some 2) None None]} 2).
  reflexivity.
Defined.

Lemma failures_le sm : (failures sm ≤ length sm)%nat.
Proof.
  rewrite failures_filter.
  induction sm as [|kv sm IH]; [done|]. cbn [List.filter length].
  destruct (startswith "FAIL" kv.2); cbn [length]; lia.
Qed.

Lemma failures_zero sm :
  failures sm = 0%nat
  ↔ Forall (λ kv : string * string, startswith "FAIL" kv.2 = false) sm.
Proof.
  rewrite failures_filter.
  induction sm as [|kv sm IH]; [by split; [constructor|]|].
  cbn [List.filter]. rewrite Forall_cons.
  destruct (startswith "FAIL" kv.2); cbn [length].
  - split; [done | by intros [? _]].
  - rewrite IH. tauto.
Qed.

(** X5. In every summary capsule the number of contracts is the size of
    [proof.strict_mode], the number of failures never exceeds it, and the
    failures are 0 exactly when no outcome starts with "FAIL". *)
Theorem capsule_failures_bounded it data c :
  summary_capsule it data = Ok c →
  ∃ sm, proof data ≫= strict_mode = Some sm ∧
        cap_contracts c = length sm ∧
        (cap_failures c ≤ cap_contracts c)%nat ∧
        (cap_failures c = 0%nat
         ↔ Forall (λ kv : string * string, startswith "FAIL" kv.2 = false) sm).
Proof.
  unfold summary_capsule.
  destruct (mutation_meta data) as [mm|]; [|done].
  destruct (proof data) as [p|]; [|done].
  cbn [getitem mbind result_bind option_bind].
  destruct (strict_mode p) as [sm|] eqn:Hsm; [|done].
  cbn. intros [= <-]. exists sm. cbn.
  split; [done|]. split; [done|]. split; [apply failures_le|].
  apply failures_zero.
Qed.

Lemma capsule_failures_bounded_witness :
  ∃ sm, proof iteration_no_cst ≫= strict_mode = Some sm ∧
        3%nat = length sm ∧ (2 ≤ 3)%nat ∧
        (2%nat = 0%nat
         ↔ Forall (λ kv : string * string, startswith "FAIL" kv.2 = false) sm).
Proof.
  apply (capsule_failures_bounded 1 iteration_no_cst
           {| cap_iteration := 1; cap_desc := Some "widen resource";
              cap_source := Some "gpt"; cap_contracts := 3;
              cap_failures := 2; cap_before_rate := "0.000";
              cap_after_rate := "0.000"; cap_reduction := "0.000" |}).
  reflexivity.
Defined.

(** X6. An empty [cst_results] object is not told apart from an absent
    one: the explorer page is the same in both cases. *)
Theorem empty_cst_results_as_absent results it data :
  iteration_explorer (<[it := with_cst_results data (Some empty_cst)]> results) it
  = iteration_explorer (<[it := with_cst_results data None]> results) it.
Proof.
  unfold iteration_explorer. by rewrite !lookup_insert_eq.
Qed.

(** X7. After a load, the capsule of the page of the selected id shows that
    id, and it is the [iteration] id of the record on the page. *)
Theorem explorer_shows_selected_record dir m it c :
  load_iteration_data dir = Ok m →
  st_html c ∈ output (iteration_explorer m it) →
  cap_iteration c = it ∧
  ∃ data, m !! it = Some data ∧ iteration data = Some it ∧
          summary_capsule it data = Ok c.
Proof.
  intros Hm Hc. unfold iteration_explorer in Hc.
  destruct (m !! it) as [data|] eqn:Hit;
    cbn [getitem lift mbind page_bind outcome output] in Hc;
    [|by apply elem_of_nil in Hc].
  destruct (load_lookup_sound dir m it data Hm Hit) as [Hid _].
  destruct (summary_capsule it data) as [c'|e] eqn:Hcap;
    cbn [getitem lift mbind page_bind outcome output show app] in Hc;
    [|by apply elem_of_nil in Hc].
  assert (c = c') as ->.
  { apply elem_of_cons in Hc as [[= ->]|Hc]; [done|]. exfalso.
    clear Hcap. revert Hc.
    destruct (proof data) as [p|]; cbn [getitem lift mbind page_bind outcome
      output show app]; [|intros Hc; not_in_output Hc].
    destruct (strict_mode p) as [sm|]; cbn [getitem lift mbind page_bind
      outcome output show app]; [|intros Hc; not_in_output Hc].
    destruct (exploratory_mode p) as [em|]; cbn [getitem lift mbind page_bind
      outcome output show app]; [|intros Hc; not_in_output Hc].
    rewrite (bind_ok (cst_section _) _ tt) by apply cst_section_ok.
    rewrite (bind_ok (repair_suggestions_section _) _ tt)
      by apply repair_suggestions_section_ok.
    cbn [output]. intros Hc.
    repeat (apply elem_of_cons in Hc as [Hc|Hc]; [done|]).
    rewrite !elem_of_app in Hc. destruct Hc as [Hc|[Hc|Hc]].
    - unfold cst_section in Hc. destruct (cst_truthy _); not_in_output Hc.
    - unfold repair_suggestions_section in Hc.
      destruct (get (repair_suggestions p) []) as [|r rs];
        [not_in_output Hc|].
      revert Hc. generalize (r :: rs). intros l.
      induction l as [|[cn sg] l IH]; cbn [for_each];
        [intros Hc; not_in_output Hc|].
      rewrite (bind_ok (show _) _ tt) by done. cbn [output show app].
      intros [Hc|Hc]%elem_of_cons; [done | by apply IH].
    - destruct (repaired_policy data); cbn in Hc; not_in_output Hc. }
  split; [|by exists data].
  unfold summary_capsule in Hcap.
  destruct (mutation_meta data); [|done]. destruct (proof data) as [p|]; [|done].
  cbn [getitem mbind result_bind] in Hcap.
  destruct (strict_mode p); [|done]. cbn in Hcap. by injection Hcap as <-.
Qed.

Lemma explorer_shows_selected_record_witness :
  cap_iteration
    {| cap_iteration := 1; cap_desc := Some "widen resource";
       cap_source := Some "gpt"; cap_contracts := 1; cap_failures := 0;
       cap_before_rate := "0.000"; cap_after_rate := "0.000";
       cap_reduction := "0.000" |} = 1 ∧
  ∃ data,
    (<[1 := iteration_1_again]> (∅ : gmap Z iteration_record)) !! 1
    = Some data ∧
    iteration data = Some 1 ∧
    summary_capsule 1 data
    = Ok {| cap_iteration := 1; cap_desc := Some "widen resource";
            cap_source := Some "gpt"; cap_contracts := 1; cap_failures := 0;
            cap_before_rate := "0.000"; cap_after_rate := "0.000";
            cap_reduction := "0.000" |}.
Proof.
  apply (explorer_shows_selected_record colliding_dir).
  - reflexivity.
  - apply list_elem_of_here.
Defined.

(** ** The provenance table *)

Lemma origin_of_metadata fd c o :
  o ≠ "unknown" → (origin_of fd c = o ↔ metadata_origin fd c = Some o).
Proof.
  intros Ho. unfold origin_of, metadata_origin, get.
  destruct (meta fd !! c) as [e|]; cbn; [|split; congruence].
  destruct (origin e) as [o'|]; cbn; split; congruence.
Qed.

(** X8. In a row of the provenance table the origin label is GPT exactly
    when the metadata origin of the contract is "gpt", Seed exactly when it
    is "seed", and Evolved in every other case: another origin, an entry
    without origin, or no metadata entry at all. *)
Theorem origin_label fd r :
  r ∈ provenance_rows fd →
  (Origin r = GPT ↔ metadata_origin fd (Contract r) = Some "gpt") ∧
  (Origin r = Seed ↔ metadata_origin fd (Contract r) = Some "seed") ∧
  (Origin r = Evolved
   ↔ metadata_origin fd (Contract r) ≠ Some "gpt"
     ∧ metadata_origin fd (Contract r) ≠ Some "seed") ∧
  (meta fd !! Contract r = None → Origin r = Evolved).
Proof.
  intros (c & -> & _)%elem_of_provenance_rows.
  unfold provenance_row_of. cbn [Origin Contract].
  rewrite <- !origin_of_metadata by done.
  assert (meta fd !! c = None → origin_of fd c = "unknown") as Hnone.
  { intros Hc. unfold origin_of. by rewrite Hc. }
  destruct (decide (origin_of fd c = "gpt")) as [Hg|Hg];
    [|destruct (decide (origin_of fd c = "seed")) as [Hs|Hs]];
    repeat split; try done; try congruence;
    try (intros [? ?]; congruence);
    try (intros Hc%Hnone; congruence).
Qed.

Lemma origin_label_witness :
  (Origin (provenance_row_of sample_dashboard "tag_scope") = GPT
   ↔ metadata_origin sample_dashboard
       (Contract (provenance_row_of sample_dashboard "tag_scope"))
     = Some "gpt") ∧
  (Origin (provenance_row_of sample_dashboard "tag_scope") = Seed
   ↔ metadata_origin sample_dashboard
       (Contract (provenance_row_of sample_dashboard "tag_scope"))
     = Some "seed") ∧
  (Origin (provenance_row_of sample_dashboard "tag_scope") = Evolved
   ↔ metadata_origin sample_dashboard
       (Contract (provenance_row_of sample_dashboard "tag_scope"))
     ≠ Some "gpt"
     ∧ metadata_origin sample_dashboard
         (Contract (provenance_row_of sample_dashboard "tag_scope"))
       ≠ Some "seed") ∧
  (meta sample_dashboard
     !! Contract (provenance_row_of sample_dashboard "tag_scope") = None →
   Origin (provenance_row_of sample_dashboard "tag_scope") = Evolved).
Proof.
  apply (origin_label sample_dashboard).
  apply elem_of_provenance_rows. exists "tag_scope". split; [reflexivity|].
  apply (bool_decide_unpack _). vm_compute. reflexivity.
Defined.






(** ** Averages and rounding *)















(** ** The results page *)

Lemma DataFrame_of_columns_ok xs ys :
  (∃ df, DataFrame_of_columns xs ys = Ok df) ↔ length xs = length ys.
Proof.
  unfold DataFrame_of_columns.
  destruct (decide (length xs = length ys)); split; try done.
  - by eexists.
  - by intros [? ?].
Qed.

(** Closes the three parts of the statement below when the section
    stopped at a missing key or at the data frame. *)
Ltac stopped_early :=
  cbn [present andb outcome output];
  split; [by eexists|];
  split; [split; [done | done] | intros _; by eexists].

(** X15. With a summary whose [avg_before] is a number, the baseline metric
    is always shown first, and the section completes exactly when the
    summary has its other four fields and the two rate series have one
    length; otherwise it raises after the metrics shown so far. *)
Theorem cst_summary_section_completes fd cs ab :
  cst_summary fd = Some cs → avg_before cs = Some (Some ab) →
  (∃ rest, output (cst_summary_section fd)
           = st_metric "Avg Violation Rate (Baseline)" (round3 ab) :: rest) ∧
  (outcome (cst_summary_section fd) = Ok tt ↔ summary_complete cs = true) ∧
  (summary_complete cs = false → raises (outcome (cst_summary_section fd))).
Proof.
  intros Hcs Hab. rewrite (cst_summary_section_present fd cs ab Hcs Hab).
  cbv zeta. unfold summary_complete.
  destruct (avg_after cs) as [aa|]; [|stopped_early].
  destruct (avg_delta cs) as [ad|]; [|stopped_early].
  destruct (before_rates cs) as [br|]; [|stopped_early].
  destruct (after_rates cs) as [ar|]; [|stopped_early].
  cbn [present andb]. unfold DataFrame_of_columns.
  destruct (decide (length br = length ar)) as [Hlen|Hlen].
  - rewrite bool_decide_eq_true_2 by done.
    split; [by eexists|]. by split.
  - rewrite bool_decide_eq_false_2 by done. stopped_early.
Qed.

Lemma cst_summary_section_completes_witness :
  (∃ rest, output (cst_summary_section ragged_dashboard)
           = st_metric "Avg Violation Rate (Baseline)" (round3 0.5) :: rest) ∧
  (outcome (cst_summary_section ragged_dashboard) = Ok tt
   ↔ summary_complete
       {| avg_before := Some (Some 0.5%Q); avg_after := Some 0.25%Q;
          avg_delta := Some 0.25%Q;
          before_rates := Some [0.5%Q; 0.5%Q];
          after_rates := Some [0.3%Q] |} = true) ∧
  (summary_complete
     {| avg_before := Some (Some 0.5%Q); avg_after := Some 0.25%Q;
        avg_delta := Some 0.25%Q;
        before_rates := Some [0.5%Q; 0.5%Q];
        after_rates := Some [0.3%Q] |} = false →
   raises (outcome (cst_summary_section ragged_dashboard))).
Proof.
  apply (cst_summary_section_completes ragged_dashboard); reflexivity.
Defined.

Lemma evolved_section_cases fd :
  evolved_section fd
  = match evolved_contracts fd with
    | None => Page [] (Raise (KeyError "evolved_contracts"))
    | Some [] => Page [st_warning "No contracts evolved in this run."] (Ok tt)
    | Some ec => Page [st_success (String.concat ", " ec)] (Ok tt)
    end.
Proof.
  unfold evolved_section. by destruct (evolved_contracts fd) as [[|c ec]|].
Qed.

Lemma provenance_section_ok fd : outcome (provenance_section fd) = Ok tt.
Proof. unfold provenance_section. by destruct (provenance_rows fd). Qed.

Lemma repair_section_ok fd : outcome (repair_section fd) = Ok tt.
Proof.
  unfold repair_section.
  by destruct (list_truthy (repair_improvements fd)
               || list_truthy (repair_failures fd)).
Qed.

Lemma export_section_cases fd :
  export_section fd
  = match lean_unprovable fd, dafny_violations fd with
    | None, _ => Page [] (Raise (KeyError "lean_unprovable"))
    | Some lu, None =>
        Page [st_metric "Lean Unprovable Theorems" (inject_Z lu)]
             (Raise (KeyError "dafny_violations"))
    | Some lu, Some dv =>
        Page [st_metric "Lean Unprovable Theorems" (inject_Z lu);
              st_metric "Dafny Violations" (inject_Z dv)] (Ok tt)
    end.
Proof.
  unfold export_section.
  by destruct (lean_unprovable fd), (dafny_violations fd).
Qed.

(** X16. The results page reads [evolved_contracts] with [d[key]] first:
    when that key is absent the page shows nothing and raises
    [KeyError], although the provenance table would take the key as
    optional.  With the key present, the provenance and repair sections
    never raise, and the page completes exactly when the CST section
    completes and both export counters are present. *)
Theorem results_dashboard_outcome fd :
  (evolved_contracts fd = None →
   results_dashboard fd = Page [] (Raise (KeyError "evolved_contracts"))) ∧
  (outcome (results_dashboard fd) = Ok tt
   ↔ is_Some (evolved_contracts fd)
     ∧ outcome (cst_summary_section fd) = Ok tt
     ∧ is_Some (lean_unprovable fd) ∧ is_Some (dafny_violations fd)).
Proof.
  unfold results_dashboard. rewrite evolved_section_cases. split.
  - by intros ->.
  - destruct (evolved_contracts fd) as [ec|];
      [|split; [done | by intros [[? ?] _]]].
    assert (∀ w, outcome (Page (A:=unit) w (Ok tt)
                   ≫= λ _, provenance_section fd
                   ≫= λ _, repair_section fd
                   ≫= λ _, cst_summary_section fd
                   ≫= λ _, export_section fd) = Ok tt
                 ↔ outcome (cst_summary_section fd) = Ok tt
                   ∧ is_Some (lean_unprovable fd)
                   ∧ is_Some (dafny_violations fd)) as Hrest.
    { intros w. rewrite (bind_ok _ _ tt) by done. cbn [outcome].
      rewrite (bind_ok _ _ tt) by apply provenance_section_ok. cbn [outcome].
      rewrite (bind_ok _ _ tt) by apply repair_section_ok. cbn [outcome].
      destruct (outcome (cst_summary_section fd)) as [[]|e] eqn:Hcst.
      - rewrite (bind_ok _ _ tt) by done. cbn [outcome].
        rewrite export_section_cases.
        destruct (lean_unprovable fd), (dafny_violations fd); cbn [outcome];
          split; try done; try (by intros (_ & [? ?] & [? ?]));
          by intros _; repeat split; eexists.
      - rewrite (bind_raise _ _ e) by done. cbn [outcome].
        split; [done | by intros [? _]]. }
    destruct ec as [|c ec]; rewrite Hrest;
      (split; [intros ?; split; [by eexists | done] | by intros [_ ?]]).
Qed.

Lemma results_dashboard_outcome_witness :
  results_dashboard
    {| evolved_contracts := None; candidate_contracts := Some ["tag_scope"];
       contract_metadata := None; repair_improvements := None;
       repair_failures := None; cst_summary := None;
       lean_unprovable := Some 0; dafny_violations := Some 0 |}
  = Page [] (Raise (KeyError "evolved_contracts")).
Proof.
  apply (results_dashboard_outcome
           {| evolved_contracts := None;
              candidate_contracts := Some ["tag_scope"];
              contract_metadata := None; repair_improvements := None;
              repair_failures := None; cst_summary := None;
              lean_unprovable := Some 0; dafny_violations := Some 0 |}).
  reflexivity.
Defined.

(** ** File names *)

Lemma append_cons a (s1 s2 : string) :
  String a s1 +:+ s2 = String a (s1 +:+ s2).
Proof. reflexivity. Qed.

Lemma app_assoc_string (s1 s2 s3 : string) :
  (s1 +:+ s2) +:+ s3 = s1 +:+ (s2 +:+ s3).
Proof.
  induction s1 as [|a s1 IH]; [done|]. by rewrite !append_cons, IH.
Qed.

Lemma app_nil_r_string (s : string) : s +:+ "" = s.
Proof. induction s as [|a s IH]; [done|]. by rewrite append_cons, IH. Qed.

Lemma rev_app_append s1 s2 : String.rev_app s1 s2 = String.rev s1 +:+ s2.
Proof.
  unfold String.rev. revert s2.
  induction s1 as [|a s1 IH]; intros s2; [done|].
  cbn [String.rev_app]. rewrite (IH (String a s2)), (IH (String a "")).
  by rewrite app_assoc_string.
Qed.

Lemma rev_append s1 s2 :
  String.rev (s1 +:+ s2) = String.rev s2 +:+ String.rev s1.
Proof.
  induction s1 as [|a s1 IH].
  - by rewrite app_nil_r_string.
  - rewrite append_cons. unfold String.rev at 1 3. cbn [String.rev_app].
    rewrite !rev_app_append, IH. by rewrite app_assoc_string.
Qed.

Lemma rev_rev s : String.rev (String.rev s) = s.
Proof.
  induction s as [|a s IH]; [done|].
  unfold String.rev at 2. cbn [String.rev_app].
  rewrite rev_app_append, rev_append, IH. done.
Qed.

Lemma endswith_app suf s :
  endswith suf s = true ↔ ∃ pre, s = pre +:+ suf.
Proof.
  unfold endswith. fold (startswith (String.rev suf) (String.rev s)).
  rewrite startswith_app. split.
  - intros [r Hr]. exists (String.rev r).
    by rewrite <- (rev_rev s), Hr, rev_append, rev_rev.
  - intros [pre ->]. exists (String.rev pre). apply rev_append.
Qed.

(** X17. The loader takes a file exactly when its name is "iteration_",
    then any text, then ".json". *)
Theorem iteration_file_name fname :
  is_iteration_file fname = true
  ↔ ∃ mid, fname = "iteration_" +:+ mid +:+ ".json".
Proof.
  unfold is_iteration_file.
  rewrite andb_true_iff, startswith_app, endswith_app. split.
  - intros [[rest ->] [pre Hpre]].
    do 10 (destruct pre as [|? pre];
           [discriminate | rewrite !append_cons in Hpre;
                           injection Hpre as <- Hpre]).
    exists pre. f_equal. exact Hpre.
  - intros [mid ->]. split; [by eexists|].
    exists ("iteration_" +:+ mid). by rewrite app_assoc_string.
Qed.

(** ** The script as a whole *)

Lemma load_loadable_iff dir :
  (∃ m, load_iteration_data dir = Ok m)
  ↔ forallb loadable (snd <$> iteration_files dir) = true.
Proof.
  split.
  - intros [m Hm]. apply forallb_forall. intros f Hf.
    pose proof (load_ok_loadable dir m Hm) as Hall.
    rewrite Forall_forall in Hall. by apply Hall, list_elem_of_In.
  - intros Hall%forallb_Forall.
    destruct (load_iteration_data_loadable dir Hall) as (m & Hm & _).
    by exists m.
Qed.

(** X18. Whatever page is chosen, the script draws it only after both
    loads succeeded: every file named iteration_*.json must parse and have
    its [iteration] key, and final_dashboard.json must exist and parse.
    Otherwise no page is drawn, not even the overview. *)
Theorem app_draws_page_iff dir f choice selection :
  (∃ p, app dir f choice selection = inr p)
  ↔ forallb loadable (snd <$> iteration_files dir) = true
    ∧ ∃ fd, f = DashboardJson fd.
Proof.
  rewrite <- load_loadable_iff. unfold app. split.
  - intros [p Hp]. destruct (load_iteration_data dir) as [m|e]; [|done].
    split; [by exists m|]. destruct f as [| |fd]; [done..|]. by exists fd.
  - intros [[m ->] [fd ->]]. by eexists.
Qed.

Lemma elem_of_run_ids dir k :
  k ∈ run_ids dir
  ↔ ∃ fname d, dir !! fname = Some (Json d)
               ∧ is_iteration_file fname = true ∧ iteration d = Some k.
Proof.
  unfold run_ids. rewrite elem_of_list_to_set, list_elem_of_omap. split.
  - intros (d & Hd & Hk).
    apply elem_of_records, list_elem_of_fmap in Hd as ([fname f] & Hf & Hin).
    cbn in Hf. subst f. apply elem_of_iteration_files in Hin as [? ?].
    by exists fname, d.
  - intros (fname & d & Hd & Hname & Hk). exists d. split; [|done].
    apply elem_of_records, list_elem_of_fmap. exists (fname, Json d).
    split; [done|]. by apply elem_of_iteration_files.
Qed.

Lemma load_dom dir m : load_iteration_data dir = Ok m → dom m = run_ids dir.
Proof.
  intros Hm. apply set_eq. intros k.
  rewrite elem_of_dom, elem_of_run_ids. split.
  - intros [d Hd].
    destruct (load_lookup_sound dir m k d Hm Hd) as (Hk & fname & Hf & Hn).
    by exists fname, d.
  - intros (fname & d & Hd & Hname & Hk). rewrite (load_ok_lookup dir m k Hm).
    apply (last_with_id_is_Some k d); [|done].
    apply elem_of_records, list_elem_of_fmap. exists (fname, Json d).
    split; [done|]. by apply elem_of_iteration_files.
Qed.

(** X19. The overview never raises, also when [evolved_contracts] is
    absent, and after a load its metric "Total Iterations Run" is the
    number of distinct ids among the iteration files, not the number of
    files. *)
Theorem overview_counts_distinct_ids dir m fd :
  load_iteration_data dir = Ok m →
  overview m fd
  = Page [st_metric "Total Iterations Run"
            (inject_Z (Z.of_nat (size (run_ids dir))));
          st_metric "Evolved Contracts"
            (inject_Z (Z.of_nat (length (get (evolved_contracts fd) []))))]
         (Ok tt).
Proof.
  intros Hm. unfold overview.
  by rewrite <- (load_dom dir m Hm), size_dom.
Qed.

Lemma overview_counts_distinct_ids_witness :
  overview (<[1 := iteration_1_again]> ∅) sample_dashboard
  = Page [st_metric "Total Iterations Run"
            (inject_Z (Z.of_nat (size (run_ids colliding_dir))));
          st_metric "Evolved Contracts"
            (inject_Z (Z.of_nat
               (length (get (evolved_contracts sample_dashboard) []))))]
         (Ok tt).
Proof.
  apply (overview_counts_distinct_ids colliding_dir). reflexivity.
Defined.

(** ** The CST section of the explorer *)

Lemma for_each_expanders (l : list (string * string)) w :
  w ∈ output (for_each l (λ '(cname, suggestion),
                 show (st_expander_code ("Fix for " +:+ cname) suggestion "json"))) →
  outside_cst_section w.
Proof.
  induction l as [|[cn sg] l IH]; cbn [for_each].
  - by intros ?%elem_of_nil.
  - rewrite (bind_ok (show _) _ tt) by done. cbn [output show app].
    intros [->|Hw]%elem_of_cons; [done | by apply IH].
Qed.

Lemma iteration_explorer_widgets results it data w :
  results !! it = Some data →
  w ∈ output (iteration_explorer results it) →
  outside_cst_section w
  ∨ w ∈ output (cst_section (get (cst_results data) empty_cst)).
Proof.
  intros Hres. unfold iteration_explorer. rewrite Hres.
  cbn [getitem lift mbind page_bind outcome output].
  destruct (summary_capsule it data) as [c|e];
    cbn [getitem lift mbind page_bind outcome output show app];
    [|by intros ?%elem_of_nil].
  intros [->|Hw]%elem_of_cons; [by left|].
  apply elem_of_cons in Hw as [->|Hw]; [by left|]. revert Hw.
  destruct (proof data) as [p|];
    cbn [getitem lift mbind page_bind outcome output show app];
    [|by intros ?%elem_of_nil].
  destruct (strict_mode p) as [sm|];
    cbn [getitem lift mbind page_bind outcome output show app];
    [|by intros ?%elem_of_nil].
  intros [->|Hw]%elem_of_cons; [by left|]. revert Hw.
  destruct (exploratory_mode p) as [em|];
    cbn [getitem lift mbind page_bind outcome output show app];
    [|by intros ?%elem_of_nil].
  intros [->|Hw]%elem_of_cons; [by left|].
  apply elem_of_cons in Hw as [->|Hw]; [by left|].
  apply elem_of_cons in Hw as [->|Hw]; [by left|]. revert Hw.
  rewrite (bind_ok (cst_section _) _ tt) by apply cst_section_ok.
  rewrite (bind_ok (repair_suggestions_section _) _ tt)
    by apply repair_suggestions_section_ok.
  cbn [output]. rewrite !elem_of_app. intros [Hw|[Hw|Hw]]; [by right|..].
  - left. unfold repair_suggestions_section in Hw.
    destruct (get (repair_suggestions p) []) as [|r rs].
    + by apply elem_of_cons in Hw as [->|?%elem_of_nil].
    + by apply (for_each_expanders (r :: rs)).
  - left. destruct (repaired_policy data);
      cbn [getitem lift mbind page_bind outcome output show app] in Hw;
      [|by apply elem_of_nil in Hw].
    by apply elem_of_cons in Hw as [->|[->|?%elem_of_nil]%elem_of_cons].
Qed.

(** X20. On an explorer page the message "No CST results found for this
    iteration." appears only for a record whose [cst_results] is absent or
    empty, and a CST object appears only when the record has one with at
    least one key, and then it is that object unchanged; the two never
    appear together. *)
Theorem cst_section_exclusive results it data :
  results !! it = Some data →
  let pg := iteration_explorer results it in
  let cst := get (cst_results data) empty_cst in
  (st_info "No CST results found for this iteration." ∈ output pg →
   cst_truthy cst = false) ∧
  (∀ c, st_json (JCst c) ∈ output pg →
        cst_results data = Some c ∧ cst_truthy c = true) ∧
  ¬ (st_info "No CST results found for this iteration." ∈ output pg
     ∧ ∃ c, st_json (JCst c) ∈ output pg).
Proof.
  intros Hres pg cst.
  assert (st_info "No CST results found for this iteration." ∈ output pg →
          cst_truthy cst = false) as Hinfo.
  { intros [Hw|Hw]%(iteration_explorer_widgets _ _ data); [done| |done].
    unfold cst_section in Hw. fold cst in Hw.
    destruct (cst_truthy cst); [|done].
    by apply elem_of_cons in Hw as [?|?%elem_of_nil]. }
  assert (∀ c, st_json (JCst c) ∈ output pg →
               cst_results data = Some c ∧ cst_truthy c = true) as Hjson.
  { intros c [Hw|Hw]%(iteration_explorer_widgets _ _ data); [done| |done].
    unfold cst_section in Hw. fold cst in Hw.
    destruct (cst_truthy cst) eqn:Htruthy;
      apply elem_of_cons in Hw as [Hw|?%elem_of_nil]; try done.
    injection Hw as ->. subst cst.
    destruct (cst_results data) as [c'|]; [done|]. by cbn in Htruthy. }
  split; [done|]. split; [done|].
  intros [Hi [c Hc]]. apply Hinfo in Hi. apply Hjson in Hc as [Hc Ht].
  subst cst. rewrite Hc in Hi. cbn in Hi. congruence.
Qed.

Lemma cst_section_exclusive_witness :
  let pg := iteration_explorer {[1 := iteration_no_cst]} 1 in
  let cst := get (cst_results iteration_no_cst) empty_cst in
  (st_info "No CST results found for this iteration." ∈ output pg →
   cst_truthy cst = false) ∧
  (∀ c, st_json (JCst c) ∈ output pg →
        cst_results iteration_no_cst = Some c ∧ cst_truthy c = true) ∧
  ¬ (st_info "No CST results found for this iteration." ∈ output pg
     ∧ ∃ c, st_json (JCst c) ∈ output pg).
Proof.
  apply (cst_section_exclusive {[1 := iteration_no_cst]} 1 iteration_no_cst).
  reflexivity.
Defined.
